(** * Calibration confidence decay (Cardinals pitcher readiness)

    A shallow embedding of
    [src/services/pitcherReadiness/calibration-decay.py]: the class
    [CalibrationConfidenceDecay] (decay model, environmental adjustment,
    recalibration policy, action classifier) and the stateful
    [CalibrationManager].

    Conventions of the embedding.
    - Python floats are idealised as real numbers ([R]); [np.exp] and
      [np.log] are the real exponential and natural logarithm.
    - A [datetime] is a number of microseconds ([Z]); the difference of
      two of them is a [timedelta] whose [total_seconds()] is that
      number divided by 10^6.
    - A [Dict[str, float]] is a [gmap string R]; [d.get(k, v)] is
      [default v (d !! k)], [k in d] is [is_Some (d !! k)] and the
      truth value of a dict is [size d <> 0].
    - [datetime.now()] is an explicit argument [now] of the methods
      that read the clock.
    - Calls to [logger] do not influence any returned value or any
      field of the objects and are left out. *)

From Stdlib Require Import Reals Lra ZArith String.
From stdpp Require Import base option gmap strings pretty.

Open Scope R_scope.

(** ** Python primitives used by the module *)

(** [datetime] and [timedelta], in microseconds. *)
Definition datetime := Z.

Definition total_seconds (delta : Z) : R := IZR delta / 1000000.

(** [(current_ts - last_calibration_ts).total_seconds() / 60.0] *)
Definition minutes_between (last_ts current_ts : datetime) : R :=
  total_seconds (current_ts - last_ts)%Z / 60.

(** Two-argument [max(a, b)] of Python: [b] when [b > a], else [a]. *)
Definition py_max (a b : R) : R := if Rlt_dec a b then b else a.

(** Two-argument [min(a, b)] of Python: [b] when [b < a], else [a]. *)
Definition py_min (a b : R) : R := if Rlt_dec b a then b else a.

(** [abs(x)] *)
Definition py_abs (x : R) : R := if Rlt_dec x 0 then - x else x.

(** [a < b] and [a > b] as truth values. *)
Definition py_lt (a b : R) : bool := if Rlt_dec a b then true else false.
Definition py_gt (a b : R) : bool := if Rgt_dec a b then true else false.

(** Truth value of a dict: non-empty. *)
Definition dict_truthy (d : gmap string R) : bool :=
  negb (Nat.eqb (size d) 0).

(** Truth value of an [Optional[Dict]]: neither [None] nor empty. *)
Definition opt_dict_truthy (d : option (gmap string R)) : bool :=
  match d with
  | None => false
  | Some d => dict_truthy d
  end.

(** [d.get(k, dflt)] *)
Definition dict_get (d : gmap string R) (k : string) (dflt : R) : R :=
  default dflt (d !! k).

(** ** CalibrationConfidenceDecay *)

Record CalibrationConfidenceDecay := mkDecay {
  initial_confidence : R;
  half_life_minutes : R;
  min_confidence : R;
  decay_rate : R;
  env_weights : gmap string R
}.

Definition default_env_weights : gmap string R :=
  <["vibration" := 2]>
  (<["wind" := 1.5]>
  (<["temperature_delta" := 1.3]>
  (<["humidity_delta" := 1.2]> ∅))).

(** [CalibrationConfidenceDecay.__init__] *)
Definition decay_init (initial half_life min_conf : R)
  : CalibrationConfidenceDecay :=
  {| initial_confidence := initial;
     half_life_minutes := half_life;
     min_confidence := min_conf;
     decay_rate := ln 2 / half_life;
     env_weights := default_env_weights |}.

(** [CalibrationConfidenceDecay()] with the default arguments. *)
Definition default_decay : CalibrationConfidenceDecay :=
  decay_init 0.95 45 0.5.

(** [self.env_weights[k]]: the four keys are always present in the table
    built by [__init__]; a missing key (a [KeyError] in Python) cannot
    occur there and reads as 1, the neutral weight. *)
Definition weight (self : CalibrationConfidenceDecay) (k : string) : R :=
  default 1 (env_weights self !! k).

Section adjust.
Variable self : CalibrationConfidenceDecay.

(** The four successive updates of [multiplier] in
    [_adjust_decay_rate], each as a function of the dict and of the
    multiplier so far. *)
Definition vibration_step (env : gmap string R) (multiplier : R) : R :=
  match env !! "rig_vibration_idx" with
  | Some vibration =>
      if Rgt_dec vibration 0.3
      then multiplier * (1 + (weight self "vibration" - 1) * vibration)
      else multiplier
  | None => multiplier
  end.

Definition wind_step (env : gmap string R) (multiplier : R) : R :=
  match env !! "wind_mph" with
  | Some wind =>
      if Rgt_dec wind 15
      then let wind_factor := py_min (wind / 30) 1 in
           multiplier * (1 + (weight self "wind" - 1) * wind_factor)
      else multiplier
  | None => multiplier
  end.

Definition temperature_step (env : gmap string R) (multiplier : R) : R :=
  match env !! "temperature_delta_f" with
  | Some d =>
      let temp_delta := py_abs d in
      if Rgt_dec temp_delta 5
      then let temp_factor := py_min (temp_delta / 15) 1 in
           multiplier *
             (1 + (weight self "temperature_delta" - 1) * temp_factor)
      else multiplier
  | None => multiplier
  end.

Definition humidity_step (env : gmap string R) (multiplier : R) : R :=
  match env !! "humidity_delta_pct" with
  | Some d =>
      let humidity_delta := py_abs d in
      if Rgt_dec humidity_delta 10
      then let humidity_factor := py_min (humidity_delta / 30) 1 in
           multiplier *
             (1 + (weight self "humidity_delta" - 1) * humidity_factor)
      else multiplier
  | None => multiplier
  end.

(** The value of [multiplier] at the end of [_adjust_decay_rate]. *)
Definition env_multiplier (env : gmap string R) : R :=
  humidity_step env
    (temperature_step env
      (wind_step env
        (vibration_step env 1))).

(** [CalibrationConfidenceDecay._adjust_decay_rate] *)
Definition _adjust_decay_rate
    (base_rate : R) (env_factors : option (gmap string R)) : R :=
  if opt_dict_truthy env_factors
  then base_rate * env_multiplier (default ∅ env_factors)
  else base_rate.

(** [CalibrationConfidenceDecay.calculate_confidence] *)
Definition calculate_confidence
    (last_calibration_ts current_ts : datetime)
    (env_factors : option (gmap string R)) : R :=
  let minutes_elapsed := minutes_between last_calibration_ts current_ts in
  let effective_decay_rate :=
    _adjust_decay_rate (decay_rate self) env_factors in
  let confidence :=
    initial_confidence self * exp (- effective_decay_rate * minutes_elapsed) in
  py_max confidence (min_confidence self).

End adjust.

(** [round(x)] to the nearest integer, ties to the even one, as Python
    rounds. *)
Definition rint (x : R) : Z :=
  let f := Int_part x in
  let r := frac_part x in
  if Rlt_dec r (1 / 2) then f
  else if Rlt_dec (1 / 2) r then (f + 1)%Z
  else if Z.even f then f else (f + 1)%Z.

(** [round(x, 3)] *)
Definition round3 (x : R) : R := IZR (rint (x * 1000)) / 1000.

(** [f"{x:.2f}"] *)
Definition format_2f (x : R) : string :=
  let n := rint (py_abs x * 100) in
  let cents := (n mod 100)%Z in
  ((if Rlt_dec x 0 then "-" else "") +:+
   pretty (n / 100)%Z +:+ "." +:+
   (if (cents <? 10)%Z then "0" else "") +:+ pretty cents)%string.

(** [CalibrationConfidenceDecay.recommend_recalibration]; it reads no
    attribute of [self]. *)
Definition recommend_recalibration
    (confidence qa_score late_data_frac : R) : bool * string :=
  if py_lt confidence 0.6 then
    (true, "Low calibration confidence: " +:+ format_2f confidence)
  else if py_lt qa_score 0.7 && py_lt confidence 0.8 then
    (true, "Low QA + declining calibration: QA=" +:+ format_2f qa_score
           +:+ ", Cal=" +:+ format_2f confidence)
  else if py_gt late_data_frac 0.3 && py_lt confidence 0.75 then
    (true, "High latency + calibration drift: Late="
           +:+ format_2f late_data_frac
           +:+ ", Cal=" +:+ format_2f confidence)
  else
    (false, "Calibration acceptable").

(** [CalibrationConfidenceDecay.get_action]; it reads no attribute of
    [self]. *)
Definition get_action (confidence : R) : string :=
  if Rge_dec confidence 0.8 then "NONE"
  else if Rge_dec confidence 0.7 then "REBASELINE"
  else if Rge_dec confidence 0.6 then "FALLBACK"
  else "ALERT".

(** ** CalibrationManager *)

(** An entry of [calibration_history]. *)
Record CalibrationEvent := mkEvent {
  venue_id : string;
  session_id : string;
  timestamp : datetime;
  event_confidence : R
}.

Record CalibrationManager := mkManager {
  decay_model : CalibrationConfidenceDecay;
  calibration_history : list CalibrationEvent;
  last_calibration_ts : option datetime;
  last_env_snapshot : gmap string R
}.

(** The dict returned by [get_current_confidence]. The keys
    ['minutes_since_calibration'] and ['env_factors'] are absent from
    the dict returned when no calibration was recorded: [None] stands
    for an absent key. *)
Record Status := mkStatus {
  confidence : R;
  action : string;
  reason : string;
  should_recalibrate : bool;
  minutes_since_calibration : option R;
  env_factors : option (gmap string R)
}.

(** [CalibrationManager.__init__] *)
Definition manager_init : CalibrationManager :=
  {| decay_model := default_decay;
     calibration_history := [];
     last_calibration_ts := None;
     last_env_snapshot := ∅ |}.

(** [CalibrationManager.update_calibration]; [now] is the value of
    [datetime.now()]. *)
Definition update_calibration
    (self : CalibrationManager) (now : datetime)
    (venue session : string) (conf : R) : CalibrationManager :=
  {| decay_model := decay_model self;
     calibration_history :=
       calibration_history self ++
       [ {| venue_id := venue; session_id := session;
            timestamp := now; event_confidence := conf |} ];
     last_calibration_ts := Some now;
     last_env_snapshot := last_env_snapshot self |}.

(** The dict returned when no calibration was recorded. *)
Definition no_calibration_status : Status :=
  {| confidence := 0.5;
     action := "ALERT";
     reason := "No calibration found";
     should_recalibrate := true;
     minutes_since_calibration := None;
     env_factors := None |}.

(** The dict [env_factors] built by [get_current_confidence] from the
    snapshot passed in and the one stored by the previous call. *)
Definition build_env_factors
    (last_snapshot : gmap string R) (env_snapshot : option (gmap string R))
  : gmap string R :=
  match env_snapshot with
  | Some snap =>
      if dict_truthy snap then
        let with_deltas : gmap string R :=
          if dict_truthy last_snapshot then
            <["humidity_delta_pct" :=
                dict_get snap "humidity_pct" 50
                - dict_get last_snapshot "humidity_pct" 50]>
            (<["temperature_delta_f" :=
                dict_get snap "temperature_f" 70
                - dict_get last_snapshot "temperature_f" 70]> ∅)
          else ∅ in
        <["wind_mph" := dict_get snap "wind_mph" 0]>
        (<["rig_vibration_idx" := dict_get snap "rig_vibration_idx_0_1" 0]>
          with_deltas)
      else ∅
  | None => ∅
  end.

(** The value of [self.last_env_snapshot] after the call. *)
Definition store_snapshot
    (last_snapshot : gmap string R) (env_snapshot : option (gmap string R))
  : gmap string R :=
  match env_snapshot with
  | Some snap => if dict_truthy snap then snap else last_snapshot
  | None => last_snapshot
  end.

(** [env_snapshot.get(k, dflt) if env_snapshot else dflt] *)
Definition snapshot_get
    (env_snapshot : option (gmap string R)) (k : string) (dflt : R) : R :=
  match env_snapshot with
  | Some snap => if dict_truthy snap then dict_get snap k dflt else dflt
  | None => dflt
  end.

(** [CalibrationManager.get_current_confidence]: the returned dict and
    the manager after the call. [now] is the value [datetime.now()]
    would return. *)
Definition get_current_confidence
    (self : CalibrationManager) (now : datetime)
    (current_ts : option datetime)
    (env_snapshot : option (gmap string R))
  : Status * CalibrationManager :=
  match last_calibration_ts self with
  | None => (no_calibration_status, self)
  | Some last_ts =>
      let current_ts := default now current_ts in
      let factors := build_env_factors (last_env_snapshot self) env_snapshot in
      let self' :=
        {| decay_model := decay_model self;
           calibration_history := calibration_history self;
           last_calibration_ts := last_calibration_ts self;
           last_env_snapshot :=
             store_snapshot (last_env_snapshot self) env_snapshot |} in
      let conf :=
        calculate_confidence (decay_model self) last_ts current_ts
          (Some factors) in
      let act := get_action conf in
      let qa_score := snapshot_get env_snapshot "tracking_qa" 0.9 in
      let late_frac := snapshot_get env_snapshot "late_data_frac" 0.05 in
      let '(should, why) := recommend_recalibration conf qa_score late_frac in
      ({| confidence := round3 conf;
          action := act;
          reason := why;
          should_recalibrate := should;
          minutes_since_calibration := Some (minutes_between last_ts current_ts);
          env_factors := Some factors |},
       self')
  end.

(** The managers that the class can produce: a fresh one, and any
    manager obtained from it by calls of its two methods. *)
Inductive reachable : CalibrationManager -> Prop :=
  | reach_init : reachable manager_init
  | reach_update self now venue session conf :
      reachable self ->
      reachable (update_calibration self now venue session conf)
  | reach_query self now current_ts env_snapshot :
      reachable self ->
      reachable (get_current_confidence self now current_ts env_snapshot).2.

(** ** The environmental factors, as a table

    The thresholds, divisors and weights that [_adjust_decay_rate]
    uses for each factor, and the keys under which
    [get_current_confidence] reads and passes them. *)

Inductive Factor := Vibration | Wind | TemperatureDelta | HumidityDelta.

(** Key of the factor in the dict received by [_adjust_decay_rate]. *)
Definition factor_key (f : Factor) : string :=
  match f with
  | Vibration => "rig_vibration_idx"
  | Wind => "wind_mph"
  | TemperatureDelta => "temperature_delta_f"
  | HumidityDelta => "humidity_delta_pct"
  end.

(** Key of the factor in the snapshot received by
    [get_current_confidence]. *)
Definition snapshot_key (f : Factor) : string :=
  match f with
  | Vibration => "rig_vibration_idx_0_1"
  | Wind => "wind_mph"
  | TemperatureDelta => "temperature_f"
  | HumidityDelta => "humidity_pct"
  end.

(** Default with which [get_current_confidence] reads the snapshot. *)
Definition snapshot_default (f : Factor) : R :=
  match f with
  | Vibration => 0
  | Wind => 0
  | TemperatureDelta => 70
  | HumidityDelta => 50
  end.

Definition weight_key (f : Factor) : string :=
  match f with
  | Vibration => "vibration"
  | Wind => "wind"
  | TemperatureDelta => "temperature_delta"
  | HumidityDelta => "humidity_delta"
  end.

(** The value compared with the threshold: the value itself for
    vibration and wind, its absolute value for the two deltas. *)
Definition magnitude (f : Factor) (x : R) : R :=
  match f with
  | Vibration | Wind => x
  | TemperatureDelta | HumidityDelta => py_abs x
  end.

Definition threshold (f : Factor) : R :=
  match f with
  | Vibration => 0.3
  | Wind => 15
  | TemperatureDelta => 5
  | HumidityDelta => 10
  end.

(** The divisor that normalises the magnitude ([wind / 30],
    [temp_delta / 15], [humidity_delta / 30]); the vibration index is
    used as it is. *)
Definition ceiling (f : Factor) : R :=
  match f with
  | Vibration => 1
  | Wind => 30
  | TemperatureDelta => 15
  | HumidityDelta => 30
  end.

(** The number by which the code multiplies [multiplier] for a factor
    above its threshold, for a vibration index within its 0-1 scale. *)
Definition code_contribution
    (self : CalibrationConfidenceDecay) (f : Factor) (x : R) : R :=
  1 + (weight self (weight_key f) - 1) * py_min (magnitude f x / ceiling f) 1.

(** *** The contribution as the specification words it

    [1 + (weight - 1) * clamp(normalizedMagnitude, 0, 1)], where the
    normalised magnitude measures how far the factor is past its
    threshold, over the normalisation span of the table. *)

Definition clamp (x lo hi : R) : R :=
  if Rlt_dec x lo then lo else if Rlt_dec hi x then hi else x.

Definition span_low (f : Factor) : R :=
  match f with
  | Vibration => 0
  | Wind => 15
  | TemperatureDelta => 5
  | HumidityDelta => 10
  end.

Definition span_high (f : Factor) : R :=
  match f with
  | Vibration => 1
  | Wind => 30
  | TemperatureDelta => 15
  | HumidityDelta => 30
  end.

Definition spec_normalized_magnitude (f : Factor) (x : R) : R :=
  (magnitude f x - span_low f) / (span_high f - span_low f).

Definition spec_contribution
    (self : CalibrationConfidenceDecay) (f : Factor) (x : R) : R :=
  1 + (weight self (weight_key f) - 1)
      * clamp (spec_normalized_magnitude f x) 0 1.

(** A factor whose key is missing from the snapshot is read with its
    default. For wind and vibration the default is 0; for temperature
    and humidity the default is compared with what the stored snapshot
    holds (or its default), and this says that the two are within the
    threshold of the factor, or that no snapshot is stored. *)
Definition default_within_threshold
    (f : Factor) (last_snapshot : gmap string R) : Prop :=
  match f with
  | Vibration | Wind => True
  | TemperatureDelta | HumidityDelta =>
      dict_truthy last_snapshot = true ->
      py_abs (snapshot_default f
              - dict_get last_snapshot (snapshot_key f) (snapshot_default f))
        <= threshold f
  end.

(** The number by which the step of factor [f] multiplies [multiplier]
    when the dict holds the value [x] for it: the contribution above the
    threshold, 1 otherwise. *)
Definition factor_multiplier
    (self : CalibrationConfidenceDecay) (f : Factor) (x : R) : R :=
  if Rgt_dec (magnitude f x) (threshold f)
  then 1 + (weight self (weight_key f) - 1)
           * match f with
             | Vibration => x
             | _ => py_min (magnitude f x / ceiling f) 1
             end
  else 1.

(** The two readings from which [get_current_confidence] computes its
    deltas, read with their defaults, are the same in both snapshots. *)
Definition same_climate_readings (last snap : gmap string R) : Prop :=
  dict_get last "temperature_f" 70 = dict_get snap "temperature_f" 70
  /\ dict_get last "humidity_pct" 50 = dict_get snap "humidity_pct" 50.

(** * Properties *)

(** ** Python primitives *)

Lemma py_max_ge_l a b : a <= py_max a b.
Proof. unfold py_max. destruct (Rlt_dec a b); lra. Qed.

Lemma py_max_ge_r a b : b <= py_max a b.
Proof. unfold py_max. destruct (Rlt_dec a b); lra. Qed.

Lemma py_max_cases a b :
  (a < b /\ py_max a b = b) \/ (b <= a /\ py_max a b = a).
Proof. unfold py_max. destruct (Rlt_dec a b); [left | right]; lra. Qed.

Lemma py_min_one_range x : 0 <= x -> 0 <= py_min x 1 <= 1.
Proof. intros Hx. unfold py_min. destruct (Rlt_dec 1 x); lra. Qed.

Lemma py_abs_nonneg x : 0 <= py_abs x.
Proof. unfold py_abs. destruct (Rlt_dec x 0); lra. Qed.

Lemma py_lt_true a b : py_lt a b = true <-> a < b.
Proof. unfold py_lt. destruct (Rlt_dec a b); split; (done || lra). Qed.

Lemma py_gt_true a b : py_gt a b = true <-> a > b.
Proof. unfold py_gt. destruct (Rgt_dec a b); split; (done || lra). Qed.

Lemma dict_truthy_empty : dict_truthy ∅ = false.
Proof. unfold dict_truthy. by rewrite map_size_empty. Qed.

Lemma dict_truthy_insert (k : string) (v : R) (d : gmap string R) :
  dict_truthy (<[k := v]> d) = true.
Proof.
  unfold dict_truthy.
  destruct (size (<[k := v]> d)) eqn:Hsz; [| done].
  apply map_size_empty_inv in Hsz.
  by apply insert_non_empty in Hsz.
Qed.

(** ** The weight table built by [__init__] *)

Section weights.
Variables initial half_life min_conf : R.
Let model := decay_init initial half_life min_conf.

Lemma weight_vibration : weight model "vibration" = 2.
Proof. reflexivity. Qed.

Lemma weight_wind : weight model "wind" = 1.5.
Proof. reflexivity. Qed.

Lemma weight_temperature : weight model "temperature_delta" = 1.3.
Proof. reflexivity. Qed.

Lemma weight_humidity : weight model "humidity_delta" = 1.2.
Proof. reflexivity. Qed.
End weights.

(** ** The environmental adjustment *)

Section adjustment.
Variables initial half_life min_conf : R.
Let model := decay_init initial half_life min_conf.

(** Each of the four updates multiplies [multiplier] by a number that
    is at least 1. *)
Lemma vibration_step_scales env m :
  exists f, 1 <= f /\ vibration_step model env m = m * f.
Proof.
  unfold vibration_step. change (weight model "vibration") with 2.
  destruct (env !! "rig_vibration_idx") as [v|].
  - destruct (Rgt_dec v 0.3).
    + exists (1 + (2 - 1) * v). split; [lra | reflexivity].
    + exists 1. split; lra.
  - exists 1. split; lra.
Qed.

Lemma wind_step_scales env m :
  exists f, 1 <= f /\ wind_step model env m = m * f.
Proof.
  unfold wind_step. change (weight model "wind") with 1.5.
  destruct (env !! "wind_mph") as [w|].
  - destruct (Rgt_dec w 15).
    + exists (1 + (1.5 - 1) * py_min (w / 30) 1). split; [| reflexivity].
      pose proof (py_min_one_range (w / 30)). lra.
    + exists 1. split; lra.
  - exists 1. split; lra.
Qed.

Lemma temperature_step_scales env m :
  exists f, 1 <= f /\ temperature_step model env m = m * f.
Proof.
  unfold temperature_step. change (weight model "temperature_delta") with 1.3.
  destruct (env !! "temperature_delta_f") as [d|].
  - destruct (Rgt_dec (py_abs d) 5).
    + exists (1 + (1.3 - 1) * py_min (py_abs d / 15) 1).
      split; [| reflexivity].
      pose proof (py_min_one_range (py_abs d / 15)). lra.
    + exists 1. split; lra.
  - exists 1. split; lra.
Qed.

Lemma humidity_step_scales env m :
  exists f, 1 <= f /\ humidity_step model env m = m * f.
Proof.
  unfold humidity_step. change (weight model "humidity_delta") with 1.2.
  destruct (env !! "humidity_delta_pct") as [d|].
  - destruct (Rgt_dec (py_abs d) 10).
    + exists (1 + (1.2 - 1) * py_min (py_abs d / 30) 1).
      split; [| reflexivity].
      pose proof (py_min_one_range (py_abs d / 30)). lra.
    + exists 1. split; lra.
  - exists 1. split; lra.
Qed.

Lemma env_multiplier_ge_1 env : 1 <= env_multiplier model env.
Proof.
  unfold env_multiplier.
  destruct (vibration_step_scales env 1) as (f1 & H1 & ->).
  destruct (wind_step_scales env (1 * f1)) as (f2 & H2 & ->).
  destruct (temperature_step_scales env (1 * f1 * f2)) as (f3 & H3 & ->).
  destruct (humidity_step_scales env (1 * f1 * f2 * f3)) as (f4 & H4 & ->).
  assert (1 <= f1 * f2) by nra.
  assert (1 <= f1 * f2 * f3) by nra.
  nra.
Qed.

Lemma env_multiplier_empty : env_multiplier model ∅ = 1.
Proof. reflexivity. Qed.

(** On a dict, [_adjust_decay_rate] is the base rate times the final
    multiplier: the early return on an empty dict returns the base
    rate, and the multiplier of an empty dict is 1. *)
Lemma adjust_decay_rate_dict base (env : gmap string R) :
  _adjust_decay_rate model base (Some env) = base * env_multiplier model env.
Proof.
  unfold _adjust_decay_rate, opt_dict_truthy, dict_truthy. simpl.
  destruct (size env) eqn:Hsz; simpl; [| reflexivity].
  apply map_size_empty_inv in Hsz. subst env.
  rewrite env_multiplier_empty. lra.
Qed.

Lemma adjust_decay_rate_falsy base env :
  opt_dict_truthy env = false -> _adjust_decay_rate model base env = base.
Proof. unfold _adjust_decay_rate. by intros ->. Qed.

Lemma adjust_decay_rate_multiplier base env :
  exists multiplier,
    1 <= multiplier /\
    _adjust_decay_rate model base env = base * multiplier.
Proof.
  destruct env as [env|].
  - exists (env_multiplier model env).
    split; [apply env_multiplier_ge_1 | apply adjust_decay_rate_dict].
  - exists 1. split; [lra |]. unfold _adjust_decay_rate. simpl. lra.
Qed.

End adjustment.

(** C7. For every base decay rate that is not negative and every
    [env_factors] argument (absent, empty, or a dict with any keys and
    any values), [_adjust_decay_rate] returns the base rate times a
    multiplier that is at least 1, hence a rate at least the base rate. *)
Theorem adjust_decay_rate_never_slows
    (initial half_life min_conf base_rate : R)
    (env_factors : option (gmap string R)) :
  0 <= base_rate ->
  base_rate
    <= _adjust_decay_rate (decay_init initial half_life min_conf)
         base_rate env_factors
  /\ exists multiplier,
       1 <= multiplier /\
       _adjust_decay_rate (decay_init initial half_life min_conf)
         base_rate env_factors = base_rate * multiplier.
Proof.
  intros Hbase.
  destruct (adjust_decay_rate_multiplier initial half_life min_conf
              base_rate env_factors) as (m & Hm & Heq).
  split; [| by exists m].
  rewrite Heq. nra.
Qed.

Lemma adjust_decay_rate_never_slows_witness :
  let env : gmap string R :=
    <["wind_mph" := 40]> (<["humidity_delta_pct" := -25]> ∅) in
  0 <= ln 2 / 45 /\
  ln 2 / 45
    <= _adjust_decay_rate (decay_init 0.95 45 0.5) (ln 2 / 45) (Some env).
Proof.
  assert (H : 0 <= ln 2 / 45).
  { pose proof ln_lt_2. lra. }
  split; [exact H |].
  exact (proj1 (adjust_decay_rate_never_slows 0.95 45 0.5 (ln 2 / 45)
                  (Some (<["wind_mph" := 40]>
                          (<["humidity_delta_pct" := -25]> ∅))) H)).
Defined.

(** C6. Whatever the model's parameters, the two timestamps and the
    environmental factors, [calculate_confidence] returns a value that
    is at least [min_confidence]. *)
Theorem calculate_confidence_floor
    (self : CalibrationConfidenceDecay)
    (last_calibration_ts current_ts : datetime)
    (env_factors : option (gmap string R)) :
  min_confidence self
    <= calculate_confidence self last_calibration_ts current_ts env_factors.
Proof. unfold calculate_confidence. apply py_max_ge_r. Qed.

(** ** The recalibration policy *)

Ltac policy_cases :=
  unfold recommend_recalibration, py_lt, py_gt;
  repeat match goal with
         | |- context [Rlt_dec ?a ?b] => destruct (Rlt_dec a b)
         | |- context [Rgt_dec ?a ?b] => destruct (Rgt_dec a b)
         end;
  simpl.

(** C9. [recommend_recalibration] tries its rules in order and the first
    one that applies decides: (1) confidence below 0.60; (2) QA score
    below 0.70 together with confidence below 0.80; (3) late-data
    fraction above 0.30 together with confidence below 0.75; (4)
    otherwise no recalibration. Hence recalibration is recommended
    exactly when one of the three conditions holds, so a poor QA score
    or a high late-data fraction alone never triggers it; the two
    scenarios of the specification come out as false and true. *)
Theorem recommend_recalibration_rules (conf qa_score late_data_frac : R) :
  let result := recommend_recalibration conf qa_score late_data_frac in
  (conf < 0.6 ->
     result = (true, "Low calibration confidence: " +:+ format_2f conf))
  /\ (~ conf < 0.6 -> qa_score < 0.7 /\ conf < 0.8 ->
     result = (true, "Low QA + declining calibration: QA="
                       +:+ format_2f qa_score
                       +:+ ", Cal=" +:+ format_2f conf))
  /\ (~ conf < 0.6 -> ~ (qa_score < 0.7 /\ conf < 0.8) ->
      late_data_frac > 0.3 /\ conf < 0.75 ->
     result = (true, "High latency + calibration drift: Late="
                       +:+ format_2f late_data_frac
                       +:+ ", Cal=" +:+ format_2f conf))
  /\ (~ conf < 0.6 -> ~ (qa_score < 0.7 /\ conf < 0.8) ->
      ~ (late_data_frac > 0.3 /\ conf < 0.75) ->
     result = (false, "Calibration acceptable"))
  /\ (result.1 = true <->
        conf < 0.6
        \/ (qa_score < 0.7 /\ conf < 0.8)
        \/ (late_data_frac > 0.3 /\ conf < 0.75))
  /\ (recommend_recalibration 0.85 0.65 0.05).1 = false
  /\ (recommend_recalibration 0.78 0.65 0.05).1 = true.
Proof.
  cbv zeta.
  repeat split.
  - intros H. policy_cases; (reflexivity || lra).
  - intros H1 [H2 H3]. policy_cases; (reflexivity || lra).
  - intros H1 H2 [H3 H4]. policy_cases; (reflexivity || lra || tauto).
  - intros H1 H2 H3. policy_cases; (reflexivity || lra || tauto).
  - policy_cases; intros H; (discriminate || lra || tauto).
  - policy_cases; intros H; (reflexivity || lra).
  - policy_cases; (reflexivity || lra).
  - policy_cases; (reflexivity || lra).
Qed.

(** ** The manager *)

Lemma reachable_decay_model self :
  reachable self -> decay_model self = default_decay.
Proof.
  induction 1 as [| self now venue session conf _ IH
                  | self now ts snap _ IH]; simpl; try done.
  unfold get_current_confidence.
  destruct (last_calibration_ts self); simpl; [| done].
  by destruct (recommend_recalibration _ _ _).
Qed.

(** C8. On a manager produced by the class in which no calibration is
    recorded, [get_current_confidence] returns, for every clock reading
    and every choice of its two optional arguments, the dict with
    confidence 0.5 (the model's [min_confidence]), action ALERT, reason
    "No calibration found" and [should_recalibrate] true. *)
Theorem get_current_confidence_uncalibrated
    (self : CalibrationManager) (now : datetime)
    (current_ts : option datetime)
    (env_snapshot : option (gmap string R)) :
  reachable self ->
  last_calibration_ts self = None ->
  let status := (get_current_confidence self now current_ts env_snapshot).1 in
  status = {| confidence := 0.5; action := "ALERT";
              reason := "No calibration found";
              should_recalibrate := true;
              minutes_since_calibration := None;
              env_factors := None |}
  /\ confidence status = min_confidence (decay_model self)
  /\ action status = "ALERT"
  /\ should_recalibrate status = true
  /\ reason status = "No calibration found".
Proof.
  intros Hreach Hnone. cbv zeta.
  unfold get_current_confidence. rewrite Hnone. simpl.
  rewrite (reachable_decay_model _ Hreach).
  repeat split.
Qed.

Lemma get_current_confidence_uncalibrated_witness :
  let snap : gmap string R := <["temperature_f" := 95]> ∅ in
  let status :=
    (get_current_confidence manager_init 0%Z (Some 60000000%Z) (Some snap)).1 in
  confidence status = min_confidence (decay_model manager_init)
  /\ action status = "ALERT"
  /\ should_recalibrate status = true
  /\ reason status = "No calibration found".
Proof.
  exact (proj2 (get_current_confidence_uncalibrated manager_init 0%Z
                  (Some 60000000%Z) (Some (<["temperature_f" := 95]> ∅))
                  reach_init eq_refl)).
Defined.

(** C10. A call of [get_current_confidence] on a manager with no
    calibration recorded returns the manager as it was: the snapshot
    passed in is not stored, and whatever is done afterwards (here: a
    calibration followed by another query) gives the same result as if
    that call had not been made. *)
Theorem get_current_confidence_uncalibrated_frame
    (self : CalibrationManager) (now : datetime)
    (current_ts : option datetime)
    (env_snapshot : option (gmap string R)) :
  last_calibration_ts self = None ->
  let self' := (get_current_confidence self now current_ts env_snapshot).2 in
  self' = self
  /\ last_env_snapshot self' = last_env_snapshot self
  /\ forall now1 venue session conf now2 ts2 snap2,
       get_current_confidence
         (update_calibration self' now1 venue session conf) now2 ts2 snap2
       = get_current_confidence
           (update_calibration self now1 venue session conf) now2 ts2 snap2.
Proof.
  intros Hnone. cbv zeta.
  assert (Hsame :
    (get_current_confidence self now current_ts env_snapshot).2 = self).
  { unfold get_current_confidence. by rewrite Hnone. }
  rewrite Hsame. repeat split.
Qed.

Lemma get_current_confidence_uncalibrated_frame_witness :
  let snap : gmap string R := <["temperature_f" := 95]> ∅ in
  (get_current_confidence manager_init 0%Z None (Some snap)).2 = manager_init.
Proof.
  exact (proj1 (get_current_confidence_uncalibrated_frame manager_init 0%Z
                  None (Some (<["temperature_f" := 95]> ∅)) eq_refl)).
Defined.

(** ** One factor at a time *)

Ltac map_lookups :=
  repeat first
    [ rewrite lookup_insert_eq
    | rewrite lookup_delete_eq
    | rewrite lookup_insert_ne by done
    | rewrite lookup_delete_ne by done
    | rewrite lookup_empty ].

Ltac table_weights :=
  repeat match goal with
         | |- context [weight (decay_init ?i ?h ?m) ?k] =>
             let v := eval cbv in k in
             match v with
             | "vibration" => change (weight (decay_init i h m) k) with 2
             | "wind" => change (weight (decay_init i h m) k) with 1.5
             | "temperature_delta" =>
                 change (weight (decay_init i h m) k) with 1.3
             | "humidity_delta" =>
                 change (weight (decay_init i h m) k) with 1.2
             end
         end.

Ltac decide_comparisons :=
  repeat match goal with
         | |- context [Rgt_dec ?a ?b] => destruct (Rgt_dec a b)
         | |- context [Rlt_dec ?a ?b] => destruct (Rlt_dec a b)
         | H : context [Rgt_dec ?a ?b] |- _ => destruct (Rgt_dec a b) in H
         | H : context [Rlt_dec ?a ?b] |- _ => destruct (Rlt_dec a b) in H
         end.

(** Adding factor [f] with value [x] to a dict multiplies the final
    multiplier by what the step of [f] contributes for [x]. *)
Lemma env_multiplier_insert
    (initial half_life min_conf : R) (f : Factor) (x : R)
    (env : gmap string R) :
  magnitude f x > threshold f ->
  env_multiplier (decay_init initial half_life min_conf)
    (<[factor_key f := x]> env)
  = env_multiplier (decay_init initial half_life min_conf)
      (delete (factor_key f) env)
    * (1 + (weight (decay_init initial half_life min_conf) (weight_key f) - 1)
           * match f with
             | Vibration => x
             | _ => py_min (magnitude f x / ceiling f) 1
             end).
Proof.
  intros Habove.
  unfold env_multiplier, humidity_step, temperature_step, wind_step,
    vibration_step.
  destruct f; simpl in *; map_lookups;
    repeat match goal with
           | |- context [env !! ?k] => destruct (env !! k)
           end;
    match goal with
    | |- context [Rgt_dec ?a ?b] =>
        destruct (Rgt_dec a b); [| lra]
    end;
    decide_comparisons; ring.
Qed.

Lemma code_contribution_vibration self x :
  x <= 1 ->
  code_contribution self Vibration x
  = 1 + (weight self "vibration" - 1) * x.
Proof.
  intros Hx. unfold code_contribution, py_min. simpl.
  destruct (Rlt_dec 1 (x / 1)); [lra |]. f_equal. f_equal. lra.
Qed.

(** C4, as the code has it. For a factor whose magnitude is strictly
    above its threshold (and, for vibration, an index within its 0-1
    scale), putting the factor into the dict multiplies the rate that
    [_adjust_decay_rate] returns by
    [1 + (weight - 1) * min(magnitude / ceiling, 1)], the magnitude
    being divided by the ceiling of the factor (1, 30, 15, 30) and not
    measured from the threshold. The contribution never exceeds the
    weight and equals it from the ceiling on; just above the threshold
    it is already more than [1 + (weight - 1) * threshold / ceiling]. *)
Theorem factor_contribution
    (initial half_life min_conf base_rate : R)
    (f : Factor) (x : R) (env : gmap string R) :
  magnitude f x > threshold f ->
  (f = Vibration -> x <= 1) ->
  let self := decay_init initial half_life min_conf in
  _adjust_decay_rate self base_rate (Some (<[factor_key f := x]> env))
  = _adjust_decay_rate self base_rate (Some (delete (factor_key f) env))
    * code_contribution self f x
  /\ 1 + (weight self (weight_key f) - 1) * (threshold f / ceiling f)
     < code_contribution self f x
  /\ code_contribution self f x <= weight self (weight_key f)
  /\ (ceiling f <= magnitude f x ->
      code_contribution self f x = weight self (weight_key f)).
Proof.
  intros Habove Hscale. cbv zeta.
  split.
  - rewrite !adjust_decay_rate_dict.
    rewrite (env_multiplier_insert _ _ _ f x env Habove).
    destruct f; try (unfold code_contribution; ring).
    rewrite code_contribution_vibration by auto. simpl. ring.
  - unfold code_contribution, py_min.
    destruct f; simpl in *;
      change (weight (decay_init initial half_life min_conf) _)
        with 2 || change (weight (decay_init initial half_life min_conf) _)
        with 1.5 || change (weight (decay_init initial half_life min_conf) _)
        with 1.3 || change (weight (decay_init initial half_life min_conf) _)
        with 1.2;
      try (assert (x <= 1) by auto);
      decide_comparisons; repeat split; intros; lra.
Qed.

Lemma factor_contribution_witness :
  let self := decay_init 0.95 45 0.5 in
  let env : gmap string R := <["rig_vibration_idx" := 0.5]> ∅ in
  _adjust_decay_rate self (ln 2 / 45) (Some (<["wind_mph" := 20]> env))
  = _adjust_decay_rate self (ln 2 / 45) (Some (delete "wind_mph" env))
    * code_contribution self Wind 20.
Proof.
  refine (proj1 (factor_contribution 0.95 45 0.5 (ln 2 / 45) Wind 20
                   (<["rig_vibration_idx" := 0.5]> ∅) _ _)).
  - simpl. lra.
  - discriminate.
Defined.

(** C4 as worded fails: at 16 mph the specification's formula gives a
    multiplier of [1 + 0.5 * (16 - 15) / (30 - 15)], the code gives
    [1 + 0.5 * 16 / 30]. *)
Lemma factor_contribution_not_from_threshold :
  let self := default_decay in
  let env : gmap string R := <["wind_mph" := 16]> ∅ in
  magnitude Wind 16 > threshold Wind
  /\ _adjust_decay_rate self 1 (Some env)
     <> 1 * spec_contribution self Wind 16.
Proof.
  cbv zeta. split; [simpl; lra |].
  unfold default_decay.
  rewrite adjust_decay_rate_dict.
  change "wind_mph" with (factor_key Wind).
  rewrite env_multiplier_insert by (simpl; lra).
  rewrite delete_empty, env_multiplier_empty.
  unfold spec_contribution, spec_normalized_magnitude, clamp, py_min.
  simpl.
  change (weight (decay_init 0.95 45 0.5) "wind") with 1.5.
  decide_comparisons; lra.
Qed.

(** The vibration index is used without a cap: outside its 0-1 scale
    the multiplier exceeds the weight of the factor. *)
Lemma vibration_beyond_scale :
  _adjust_decay_rate default_decay 1 (Some (<["rig_vibration_idx" := 5]> ∅))
  = 6.
Proof.
  unfold default_decay.
  rewrite adjust_decay_rate_dict.
  change "rig_vibration_idx" with (factor_key Vibration).
  rewrite env_multiplier_insert by (simpl; lra).
  rewrite delete_empty, env_multiplier_empty.
  change (weight (decay_init 0.95 45 0.5) (weight_key Vibration)) with 2.
  lra.
Qed.

(** ** Keys missing from the snapshot *)

(** A factor that is absent from the dict, or not above its threshold,
    can be deleted from the dict without changing the multiplier. *)
Lemma env_multiplier_delete
    (self : CalibrationConfidenceDecay) (f : Factor) (env : gmap string R) :
  (forall x, env !! factor_key f = Some x -> magnitude f x <= threshold f) ->
  env_multiplier self (delete (factor_key f) env) = env_multiplier self env.
Proof.
  intros Hlow.
  unfold env_multiplier, humidity_step, temperature_step, wind_step,
    vibration_step.
  destruct f; simpl in *; map_lookups;
    match type of Hlow with
    | forall x, env !! ?k = Some x -> _ =>
        destruct (env !! k) as [v|]; [| reflexivity];
        specialize (Hlow v eq_refl)
    end;
    match goal with
    | |- context [Rgt_dec ?a ?b] =>
        destruct (Rgt_dec a b); [lra | reflexivity]
    end.
Qed.

Lemma build_env_factors_lookup
    (f : Factor) (prior snap : gmap string R) (x : R) :
  snap !! snapshot_key f = None ->
  build_env_factors prior (Some snap) !! factor_key f = Some x ->
  match f with
  | Vibration | Wind => x = 0
  | TemperatureDelta | HumidityDelta =>
      dict_truthy prior = true
      /\ x = snapshot_default f
             - dict_get prior (snapshot_key f) (snapshot_default f)
  end.
Proof.
  intros Hmiss. unfold build_env_factors, dict_get.
  destruct (dict_truthy snap); [| by rewrite lookup_empty].
  destruct (dict_truthy prior);
    destruct f; simpl in *; rewrite ?Hmiss; map_lookups; simpl;
    intros; simplify_eq; auto.
Qed.

(** C3, as the code has it. A key missing from the snapshot is read with
    a default and never makes the call fail. A missing wind or
    vibration key reads as 0, below the threshold, and contributes
    nothing, whatever snapshot is stored. A missing temperature or
    humidity key reads as 70 or 50, and its delta is still computed
    against the stored snapshot: it contributes nothing when no
    snapshot is stored or when the stored value (or its default) is
    within the threshold of that default. In these cases the adjusted
    rate and the confidence are those obtained with the factor deleted
    from the dict passed to the decay model. *)
Theorem missing_key_contributes_nothing
    (initial half_life min_conf base_rate : R)
    (f : Factor) (prior snap : gmap string R)
    (last_ts current_ts : datetime) :
  snap !! snapshot_key f = None ->
  default_within_threshold f prior ->
  let self := decay_init initial half_life min_conf in
  let factors := build_env_factors prior (Some snap) in
  _adjust_decay_rate self base_rate (Some factors)
  = _adjust_decay_rate self base_rate (Some (delete (factor_key f) factors))
  /\ calculate_confidence self last_ts current_ts (Some factors)
     = calculate_confidence self last_ts current_ts
         (Some (delete (factor_key f) factors)).
Proof.
  intros Hmiss Hnear. cbv zeta.
  assert (Hmult :
    env_multiplier (decay_init initial half_life min_conf)
      (delete (factor_key f) (build_env_factors prior (Some snap)))
    = env_multiplier (decay_init initial half_life min_conf)
        (build_env_factors prior (Some snap))).
  { apply env_multiplier_delete. intros x Hx.
    pose proof (build_env_factors_lookup f prior snap x Hmiss Hx) as Hval.
    destruct f; simpl in *.
    - subst x. lra.
    - subst x. lra.
    - destruct Hval as [Htruthy ->]. auto.
    - destruct Hval as [Htruthy ->]. auto. }
  unfold calculate_confidence.
  rewrite !adjust_decay_rate_dict, Hmult. split; reflexivity.
Qed.

Lemma missing_key_contributes_nothing_witness :
  let self := decay_init 0.95 45 0.5 in
  let prior : gmap string R := <["temperature_f" := 73]> ∅ in
  let snap : gmap string R := <["wind_mph" := 20]> ∅ in
  let factors := build_env_factors prior (Some snap) in
  _adjust_decay_rate self (ln 2 / 45) (Some factors)
  = _adjust_decay_rate self (ln 2 / 45)
      (Some (delete "temperature_delta_f" factors)).
Proof.
  refine (proj1 (missing_key_contributes_nothing 0.95 45 0.5 (ln 2 / 45)
                   TemperatureDelta (<["temperature_f" := 73]> ∅)
                   (<["wind_mph" := 20]> ∅) 0%Z 60000000%Z _ _)).
  - reflexivity.
  - simpl. intros _. unfold dict_get. rewrite lookup_insert_eq. simpl.
    unfold py_abs. destruct (Rlt_dec (70 - 73) 0); lra.
Defined.

(** C3 as worded fails: with 90 degrees stored and a snapshot without
    [temperature_f], the missing temperature is read as 70, the delta
    is -20 and the rate is multiplied by 1.3. *)
Lemma missing_temperature_contributes :
  let prior : gmap string R := <["temperature_f" := 90]> ∅ in
  let snap : gmap string R := <["wind_mph" := 5]> ∅ in
  let factors := build_env_factors prior (Some snap) in
  snap !! "temperature_f" = None
  /\ factors !! "temperature_delta_f" = Some (70 - 90)
  /\ _adjust_decay_rate default_decay 1 (Some factors) = 1.3
  /\ _adjust_decay_rate default_decay 1
       (Some (delete "temperature_delta_f" factors)) = 1
  /\ _adjust_decay_rate default_decay 1 (Some factors)
     <> _adjust_decay_rate default_decay 1
          (Some (delete "temperature_delta_f" factors)).
Proof.
  cbv zeta.
  assert (Hfactors :
    build_env_factors (<["temperature_f" := 90]> ∅)
      (Some (<["wind_mph" := 5]> ∅))
    = <["wind_mph" := 5]>
        (<["rig_vibration_idx" := 0]>
          (<["humidity_delta_pct" := 50 - 50]>
            (<["temperature_delta_f" := 70 - 90]> ∅)))).
  { unfold build_env_factors. rewrite !dict_truthy_insert.
    unfold dict_get. map_lookups. reflexivity. }
  rewrite Hfactors.
  assert (H1 :
    _adjust_decay_rate default_decay 1
      (Some (<["wind_mph" := 5]>
        (<["rig_vibration_idx" := 0]>
          (<["humidity_delta_pct" := 50 - 50]>
            (<["temperature_delta_f" := 70 - 90]> ∅))))) = 1.3).
  { unfold default_decay. rewrite adjust_decay_rate_dict.
    unfold env_multiplier, humidity_step, temperature_step, wind_step,
      vibration_step.
    map_lookups. table_weights.
    unfold py_abs, py_min. decide_comparisons; lra. }
  assert (H2 :
    _adjust_decay_rate default_decay 1
      (Some (delete "temperature_delta_f"
        (<["wind_mph" := 5]>
          (<["rig_vibration_idx" := 0]>
            (<["humidity_delta_pct" := 50 - 50]>
              (<["temperature_delta_f" := 70 - 90]> ∅)))))) = 1).
  { unfold default_decay. rewrite adjust_decay_rate_dict.
    unfold env_multiplier, humidity_step, temperature_step, wind_step,
      vibration_step.
    map_lookups. table_weights.
    unfold py_abs, py_min. decide_comparisons; lra. }
  rewrite H1, H2.
  repeat split; lra.
Qed.

(** ** Decay over time *)

Lemma ln_2_pos : 0 < ln 2.
Proof. pose proof ln_lt_2. lra. Qed.

Lemma exp_ln_2 : exp (ln 2) = 2.
Proof. apply exp_ln. lra. Qed.

Lemma exp_neg_ln_2 : exp (- ln 2) = 1 / 2.
Proof. rewrite exp_Ropp, exp_ln_2. lra. Qed.

Lemma minutes_between_lt last t1 t2 :
  (t1 < t2)%Z -> minutes_between last t1 < minutes_between last t2.
Proof.
  intros Hlt. unfold minutes_between, total_seconds.
  assert (IZR (t1 - last) < IZR (t2 - last)) by (apply IZR_lt; lia).
  lra.
Qed.

Lemma minutes_between_neg last t :
  (t < last)%Z -> minutes_between last t < 0.
Proof.
  intros Hlt. unfold minutes_between, total_seconds.
  assert (IZR (t - last) < 0) by (apply IZR_lt; lia).
  lra.
Qed.

Lemma decay_rate_pos initial half_life min_conf :
  0 < half_life -> 0 < decay_rate (decay_init initial half_life min_conf).
Proof.
  intros Hh. simpl. apply Rdiv_lt_0_compat; [apply ln_2_pos | exact Hh].
Qed.

(** With no environmental factors the confidence is the floored
    exponential at the base rate. *)
Lemma calculate_confidence_no_env self last t env :
  opt_dict_truthy env = false ->
  calculate_confidence self last t env
  = py_max (initial_confidence self
            * exp (- decay_rate self * minutes_between last t))
      (min_confidence self).
Proof.
  intros Hfalsy. unfold calculate_confidence, _adjust_decay_rate.
  by rewrite Hfalsy.
Qed.

(** Before the calibration instant the exponent is positive: the value
    returned is above the initial confidence, whatever the factors. *)
Lemma confidence_grows_before_calibration
    initial half_life min_conf last t env :
  0 < initial -> 0 < half_life -> (t < last)%Z ->
  initial
  < calculate_confidence (decay_init initial half_life min_conf) last t env.
Proof.
  intros Hi Hh Hlt. unfold calculate_confidence.
  destruct (adjust_decay_rate_multiplier initial half_life min_conf
              (decay_rate (decay_init initial half_life min_conf)) env)
    as (m & Hm & ->).
  pose proof (decay_rate_pos initial half_life min_conf Hh) as Hrate.
  pose proof (minutes_between_neg last t Hlt) as Hneg.
  set (rate := decay_rate (decay_init initial half_life min_conf)) in *.
  set (mins := minutes_between last t) in *.
  assert (Hexp : 1 < exp (- (rate * m) * mins)).
  { rewrite <- exp_0. apply exp_increasing.
    assert (0 < rate * m) by nra. nra. }
  eapply Rlt_le_trans; [| apply py_max_ge_l].
  simpl. nra.
Qed.

(** C2, evaluated on the code. A query 45 minutes before the calibration
    instant, with the default model and no environmental factors, does
    not return the confidence of elapsed time zero (0.95): the elapsed
    time is not clamped, the exponent is [ln 2] and the method returns
    twice the initial confidence, 1.9, outside the range [0, 1] its
    docstring announces. *)
Theorem calculate_confidence_before_calibration (calibrated : datetime) :
  calculate_confidence default_decay calibrated
    (calibrated - 2700000000)%Z None = 1.9
  /\ calculate_confidence default_decay calibrated calibrated None = 0.95.
Proof.
  rewrite !calculate_confidence_no_env by reflexivity.
  unfold minutes_between, total_seconds. simpl.
  replace (calibrated - 2700000000 - calibrated)%Z with (-2700000000)%Z by lia.
  replace (calibrated - calibrated)%Z with 0%Z by lia.
  replace (- (ln 2 / 45) * (-2700000000 / 1000000 / 60)) with (ln 2) by lra.
  replace (- (ln 2 / 45) * (0 / 1000000 / 60)) with 0 by lra.
  rewrite exp_ln_2, exp_0. unfold py_max.
  split; decide_comparisons; lra.
Qed.

(** C5, as the code has it. With a positive initial confidence and
    half-life and no environmental factors, the confidence returned by
    [calculate_confidence] does not increase with the elapsed time, is
    strictly decreasing as long as it is above [min_confidence], and at
    an elapsed time of one half-life it is the larger of [initial / 2]
    and [min_confidence]. *)
Theorem calculate_confidence_no_env_decay
    (initial half_life min_conf : R)
    (env : option (gmap string R)) (last t1 t2 : datetime) :
  0 < initial ->
  0 < half_life ->
  opt_dict_truthy env = false ->
  (last <= t1 < t2)%Z ->
  let self := decay_init initial half_life min_conf in
  calculate_confidence self last t2 env
    <= calculate_confidence self last t1 env
  /\ (min_conf < calculate_confidence self last t1 env ->
      calculate_confidence self last t2 env
        < calculate_confidence self last t1 env)
  /\ (forall t,
        minutes_between last t = half_life ->
        calculate_confidence self last t env
        = py_max (initial / 2) min_conf).
Proof.
  intros Hi Hh Hfalsy [Hle Hlt]. cbv zeta.
  rewrite !calculate_confidence_no_env by exact Hfalsy.
  pose proof (decay_rate_pos initial half_life min_conf Hh) as Hrate.
  pose proof (minutes_between_lt last t1 t2 Hlt) as Hmins.
  set (rate := decay_rate (decay_init initial half_life min_conf)) in *.
  assert (Hexp : exp (- rate * minutes_between last t2)
                 < exp (- rate * minutes_between last t1)).
  { apply exp_increasing. nra. }
  assert (Hundamped :
    initial * exp (- rate * minutes_between last t2)
    < initial * exp (- rate * minutes_between last t1)) by nra.
  simpl initial_confidence. simpl min_confidence.
  repeat split.
  - destruct (py_max_cases
                (initial * exp (- rate * minutes_between last t1)) min_conf)
      as [[? ->] | [? ->]];
    destruct (py_max_cases
                (initial * exp (- rate * minutes_between last t2)) min_conf)
      as [[? ->] | [? ->]]; lra.
  - destruct (py_max_cases
                (initial * exp (- rate * minutes_between last t1)) min_conf)
      as [[? ->] | [? ->]];
    destruct (py_max_cases
                (initial * exp (- rate * minutes_between last t2)) min_conf)
      as [[? ->] | [? ->]]; lra.
  - intros t Ht. rewrite calculate_confidence_no_env by exact Hfalsy.
    rewrite Ht. subst rate. simpl.
    replace (- (ln 2 / half_life) * half_life) with (- ln 2)
      by (field; lra).
    rewrite exp_neg_ln_2. f_equal. lra.
Qed.

Lemma calculate_confidence_no_env_decay_witness :
  let self := decay_init 0.95 45 0.5 in
  calculate_confidence self 0%Z 1200000000%Z None
    <= calculate_confidence self 0%Z 600000000%Z None.
Proof.
  refine (proj1 (calculate_confidence_no_env_decay 0.95 45 0.5 None
                   0%Z 600000000%Z 1200000000%Z _ _ _ _)).
  - lra.
  - lra.
  - reflexivity.
  - lia.
Defined.

(** C5 as worded fails: with the default model (initial 0.95, half-life
    45 minutes, floor 0.5) the confidence 45 minutes after the
    calibration is the floor 0.5 and not [0.95 / 2], and it is the same
    45 minutes later, so it is not strictly decreasing either. *)
Lemma half_life_value_is_floored :
  minutes_between 0%Z 2700000000%Z = half_life_minutes default_decay
  /\ calculate_confidence default_decay 0%Z 2700000000%Z None = 0.5
  /\ calculate_confidence default_decay 0%Z 2700000000%Z None
     <> initial_confidence default_decay / 2
  /\ ~ calculate_confidence default_decay 0%Z 5400000000%Z None
       < calculate_confidence default_decay 0%Z 2700000000%Z None.
Proof.
  assert (Hmins : minutes_between 0%Z 2700000000%Z = 45).
  { unfold minutes_between, total_seconds.
    replace (2700000000 - 0)%Z with 2700000000%Z by lia. lra. }
  assert (Hhalf :
    calculate_confidence default_decay 0%Z 2700000000%Z None = 0.5).
  { rewrite calculate_confidence_no_env by reflexivity.
    rewrite Hmins. simpl.
    replace (- (ln 2 / 45) * 45) with (- ln 2) by lra.
    rewrite exp_neg_ln_2. unfold py_max. decide_comparisons; lra. }
  repeat split.
  - exact Hmins.
  - exact Hhalf.
  - rewrite Hhalf. simpl. lra.
  - rewrite Hhalf.
    assert (Hfloor :
      0.5 <= calculate_confidence default_decay 0%Z 5400000000%Z None).
    { unfold calculate_confidence. apply py_max_ge_r. }
    lra.
Qed.

(** ** Repeated queries *)

Lemma get_current_confidence_state self now current_ts snap last_ts :
  last_calibration_ts self = Some last_ts ->
  (get_current_confidence self now current_ts snap).2
  = {| decay_model := decay_model self;
       calibration_history := calibration_history self;
       last_calibration_ts := last_calibration_ts self;
       last_env_snapshot := store_snapshot (last_env_snapshot self) snap |}.
Proof.
  intros Hts. unfold get_current_confidence. rewrite Hts.
  by destruct (recommend_recalibration _ _ _).
Qed.

Lemma get_current_confidence_env_factors self now current_ts snap last_ts :
  last_calibration_ts self = Some last_ts ->
  env_factors (get_current_confidence self now current_ts snap).1
  = Some (build_env_factors (last_env_snapshot self) snap).
Proof.
  intros Hts. unfold get_current_confidence. rewrite Hts.
  by destruct (recommend_recalibration _ _ _).
Qed.

(** The dict returned for a manager with a calibration recorded. *)
Lemma get_current_confidence_status self now current_ts snap last_ts :
  last_calibration_ts self = Some last_ts ->
  let factors := build_env_factors (last_env_snapshot self) snap in
  let t := default now current_ts in
  let conf :=
    calculate_confidence (decay_model self) last_ts t (Some factors) in
  let rec :=
    recommend_recalibration conf
      (snapshot_get snap "tracking_qa" 0.9)
      (snapshot_get snap "late_data_frac" 0.05) in
  (get_current_confidence self now current_ts snap).1
  = {| confidence := round3 conf;
       action := get_action conf;
       reason := rec.2;
       should_recalibrate := rec.1;
       minutes_since_calibration := Some (minutes_between last_ts t);
       env_factors := Some factors |}.
Proof.
  intros Hts. cbv zeta. unfold get_current_confidence. rewrite Hts.
  by destruct (recommend_recalibration _ _ _).
Qed.

(** With an explicit [current_ts] the clock is not read. *)
Lemma get_current_confidence_explicit_ts self now1 now2 t snap :
  get_current_confidence self now1 (Some t) snap
  = get_current_confidence self now2 (Some t) snap.
Proof. reflexivity. Qed.

Lemma store_snapshot_unchanged (last : gmap string R) snap :
  opt_dict_truthy snap = false \/ snap = Some last ->
  store_snapshot last snap = last.
Proof.
  intros [Hfalsy | ->]; unfold store_snapshot.
  - destruct snap as [d|]; [| done]. simpl in Hfalsy. by rewrite Hfalsy.
  - by destruct (dict_truthy last).
Qed.

Lemma store_snapshot_idempotent (last : gmap string R) snap :
  store_snapshot (store_snapshot last snap) snap = store_snapshot last snap.
Proof.
  unfold store_snapshot. destruct snap as [d|]; [| reflexivity].
  by destruct (dict_truthy d) eqn:Hd; rewrite ?Hd.
Qed.

(** The factors of a second query with the same snapshot are those of
    the first one exactly when the snapshot is omitted or empty, or a
    snapshot is already stored with the same temperature and humidity
    readings. *)
Lemma build_env_factors_after_store (last : gmap string R) snap :
  build_env_factors (store_snapshot last snap) snap
  = build_env_factors last snap
  <-> opt_dict_truthy snap = false
      \/ (dict_truthy last = true
          /\ exists d, snap = Some d /\ same_climate_readings last d).
Proof.
  destruct snap as [d|]; simpl; [| by split; [left |]].
  destruct (dict_truthy d) eqn:Hd; [| by split; [left |]].
  unfold same_climate_readings. split.
  - intros Heq. right.
    pose proof (f_equal (.!! "temperature_delta_f") Heq) as Htemp.
    pose proof (f_equal (.!! "humidity_delta_pct") Heq) as Hhum.
    revert Htemp Hhum. rewrite Hd.
    destruct (dict_truthy last); map_lookups; intros Htemp Hhum;
      [| discriminate].
    split; [reflexivity |]. exists d. split; [reflexivity |].
    injection Htemp as Htemp. injection Hhum as Hhum. split; lra.
  - intros [Hfalsy | (Hlast & d' & Hd' & Htemp & Hhum)]; [discriminate |].
    injection Hd' as <-. by rewrite Hd, Hlast, Htemp, Hhum.
Qed.

(** C1, as the code has it. Take two successive calls of
    [get_current_confidence] with the same snapshot and the same
    effective timestamp (an explicit [current_ts], or the same clock
    reading). The manager after the second call is the manager after
    the first. The two dicts returned are identical exactly when the
    replacement of the stored snapshot by the first call does not
    change the deltas: no calibration is recorded, or the snapshot is
    omitted or empty, or a non-empty snapshot is already stored whose
    temperature and humidity readings (with the defaults 70 and 50) are
    those of the new one. In every other case they differ. *)
Theorem get_current_confidence_repeatable
    (self : CalibrationManager) (now1 now2 : datetime)
    (current_ts : option datetime) (snap : option (gmap string R)) :
  default now1 current_ts = default now2 current_ts ->
  let first := get_current_confidence self now1 current_ts snap in
  let second := get_current_confidence first.2 now2 current_ts snap in
  second.2 = first.2
  /\ (second.1 = first.1
      <-> last_calibration_ts self = None
          \/ opt_dict_truthy snap = false
          \/ (dict_truthy (last_env_snapshot self) = true
              /\ exists d, snap = Some d
                           /\ same_climate_readings
                                (last_env_snapshot self) d)).
Proof.
  intros Htime. cbv zeta.
  destruct (last_calibration_ts self) as [last_ts|] eqn:Hts.
  - rewrite (get_current_confidence_state self now1 current_ts snap last_ts)
      by exact Hts.
    rewrite (get_current_confidence_status self now1 current_ts snap last_ts)
      by exact Hts.
    rewrite (get_current_confidence_state _ now2 current_ts snap last_ts)
      by exact Hts.
    rewrite (get_current_confidence_status _ now2 current_ts snap last_ts)
      by exact Hts.
    cbv zeta. simpl. rewrite store_snapshot_idempotent, <- Htime, Hts.
    split; [reflexivity |].
    rewrite <- build_env_factors_after_store. split.
    + intros Heq. apply (f_equal env_factors) in Heq. simpl in Heq.
      right. congruence.
    + intros [Hnone | Hsame]; [discriminate |]. by rewrite Hsame.
  - assert (Hfirst :
      get_current_confidence self now1 current_ts snap
      = (no_calibration_status, self)).
    { unfold get_current_confidence. by rewrite Hts. }
    rewrite Hfirst. simpl.
    unfold get_current_confidence. rewrite Hts. simpl.
    split; [reflexivity |]. split; [by left | reflexivity].
Qed.

Lemma get_current_confidence_repeatable_witness :
  let stored : gmap string R :=
    <["temperature_f" := 70]> (<["wind_mph" := 5]> ∅) in
  let snap : gmap string R :=
    <["temperature_f" := 70]> (<["wind_mph" := 20]> ∅) in
  let self :=
    {| decay_model := default_decay;
       calibration_history :=
         [ {| venue_id := "busch_iii";
              session_id := "game_2025_08_15_1900";
              timestamp := 0%Z; event_confidence := 0.95 |} ];
       last_calibration_ts := Some 0%Z;
       last_env_snapshot := stored |} in
  let first :=
    get_current_confidence self 5%Z (Some 900000000%Z) (Some snap) in
  let second :=
    get_current_confidence first.2 7%Z (Some 900000000%Z) (Some snap) in
  last_env_snapshot first.2 = snap
  /\ second.2 = first.2
  /\ second.1 = first.1.
Proof.
  cbv zeta.
  destruct (get_current_confidence_repeatable
              {| decay_model := default_decay;
                 calibration_history :=
                   [ {| venue_id := "busch_iii";
                        session_id := "game_2025_08_15_1900";
                        timestamp := 0%Z; event_confidence := 0.95 |} ];
                 last_calibration_ts := Some 0%Z;
                 last_env_snapshot :=
                   <["temperature_f" := 70]> (<["wind_mph" := 5]> ∅) |}
              5%Z 7%Z (Some 900000000%Z)
              (Some (<["temperature_f" := 70]> (<["wind_mph" := 20]> ∅)))
              eq_refl) as [Hstate Hstatus].
  split; [| split; [exact Hstate |]].
  - erewrite get_current_confidence_state by reflexivity.
    simpl. by rewrite dict_truthy_insert.
  - apply Hstatus. right. right. split; [apply dict_truthy_insert |].
    eexists. split; [reflexivity |].
    unfold same_climate_readings, dict_get. by map_lookups.
Defined.

(** C1 as worded fails. After a calibration and a first query at 70
    degrees, two successive queries with the same timestamp and the same
    snapshot at 90 degrees differ: the first one computes the
    temperature delta against 70 and stores the snapshot, the second one
    computes it against 90. *)
Lemma get_current_confidence_not_repeatable :
  let calibrated :=
    update_calibration manager_init 0%Z "busch_iii" "game_2025_08_15_1900"
      0.95 in
  let earlier : gmap string R := <["temperature_f" := 70]> ∅ in
  let snap : gmap string R := <["temperature_f" := 90]> ∅ in
  let self :=
    (get_current_confidence calibrated 0%Z (Some 900000000%Z)
       (Some earlier)).2 in
  let first :=
    get_current_confidence self 0%Z (Some 1800000000%Z) (Some snap) in
  let second :=
    get_current_confidence first.2 0%Z (Some 1800000000%Z) (Some snap) in
  (env_factors first.1 ≫= (.!! "temperature_delta_f")) = Some (90 - 70)
  /\ (env_factors second.1 ≫= (.!! "temperature_delta_f")) = Some (90 - 90)
  /\ second.1 <> first.1.
Proof.
  cbv zeta.
  set (calibrated :=
    update_calibration manager_init 0%Z "busch_iii" "game_2025_08_15_1900"
      0.95).
  set (self :=
    (get_current_confidence calibrated 0%Z (Some 900000000%Z)
       (Some (<["temperature_f" := 70]> ∅))).2).
  assert (Hself : self
    = {| decay_model := default_decay;
         calibration_history := calibration_history calibrated;
         last_calibration_ts := Some 0%Z;
         last_env_snapshot := <["temperature_f" := 70]> ∅ |}).
  { subst self. erewrite get_current_confidence_state by reflexivity.
    unfold store_snapshot. by rewrite dict_truthy_insert. }
  set (first :=
    get_current_confidence self 0%Z (Some 1800000000%Z)
      (Some (<["temperature_f" := 90]> ∅))).
  assert (Hstate : first.2
    = {| decay_model := default_decay;
         calibration_history := calibration_history calibrated;
         last_calibration_ts := Some 0%Z;
         last_env_snapshot := <["temperature_f" := 90]> ∅ |}).
  { subst first. rewrite Hself.
    erewrite get_current_confidence_state by reflexivity.
    unfold store_snapshot. by rewrite dict_truthy_insert. }
  assert (H1 :
    env_factors first.1 ≫= (.!! "temperature_delta_f") = Some (90 - 70)).
  { subst first. rewrite Hself.
    erewrite get_current_confidence_env_factors by reflexivity.
    simpl. unfold build_env_factors. rewrite !dict_truthy_insert.
    unfold dict_get. by map_lookups. }
  assert (H2 :
    env_factors
      (get_current_confidence first.2 0%Z (Some 1800000000%Z)
         (Some (<["temperature_f" := 90]> ∅))).1
      ≫= (.!! "temperature_delta_f") = Some (90 - 90)).
  { rewrite Hstate.
    erewrite get_current_confidence_env_factors by reflexivity.
    simpl. unfold build_env_factors. rewrite !dict_truthy_insert.
    unfold dict_get. by map_lookups. }
  split; [exact H1 |]. split; [exact H2 |].
  intros Heq. rewrite Heq, H1 in H2.
  injection H2 as H2. lra.
Qed.

(** * Further properties of the module *)

(** ** Action classifier and recalibration policy together *)

Ltac action_cases :=
  unfold get_action;
  repeat match goal with
         | |- context [Rge_dec ?a ?b] => destruct (Rge_dec a b)
         end.

Lemma get_action_bands conf :
  (get_action conf = "NONE" <-> 0.8 <= conf)
  /\ (get_action conf = "REBASELINE" <-> 0.7 <= conf < 0.8)
  /\ (get_action conf = "FALLBACK" <-> 0.6 <= conf < 0.7)
  /\ (get_action conf = "ALERT" <-> conf < 0.6).
Proof.
  action_cases; repeat split; intros; try discriminate; try lra;
    try reflexivity.
Qed.

(** The action and the recommendation computed from one confidence
    agree at both ends: ALERT always comes with a recommendation to
    recalibrate, NONE never does, whatever the QA score and the late-data
    fraction; and a recommendation with an action other than ALERT is
    always one of the two corroborated rules. *)
Theorem action_agrees_with_recommendation (conf qa_score late_data_frac : R) :
  let recommended := (recommend_recalibration conf qa_score late_data_frac).1 in
  (get_action conf = "ALERT" -> recommended = true)
  /\ (get_action conf = "NONE" -> recommended = false)
  /\ (recommended = true -> get_action conf <> "ALERT" ->
      (qa_score < 0.7 /\ conf < 0.8) \/ (late_data_frac > 0.3 /\ conf < 0.75)).
Proof.
  cbv zeta.
  destruct (get_action_bands conf) as (Hnone & _ & _ & Halert).
  repeat split.
  - intros H. apply Halert in H. policy_cases; (reflexivity || lra).
  - intros H. apply Hnone in H. policy_cases; (reflexivity || lra).
  - intros Hrec Hact.
    assert (~ conf < 0.6) by (intros Hlow; apply Hact, Halert, Hlow).
    revert Hrec. policy_cases; intros; try discriminate; try lra; tauto.
Qed.

(** A recommendation to recalibrate is never withdrawn by worse
    readings: a lower confidence, a lower QA score or a higher late-data
    fraction keep it. *)
Theorem recommendation_monotone
    (conf conf' qa_score qa_score' late_data_frac late_data_frac' : R) :
  conf' <= conf ->
  qa_score' <= qa_score ->
  late_data_frac <= late_data_frac' ->
  (recommend_recalibration conf qa_score late_data_frac).1 = true ->
  (recommend_recalibration conf' qa_score' late_data_frac').1 = true.
Proof.
  intros Hc Hq Hl.
  policy_cases; intros; try discriminate; try reflexivity; lra.
Qed.

Lemma recommendation_monotone_witness :
  (recommend_recalibration 0.7 0.6 0.4).1 = true.
Proof.
  refine (recommendation_monotone 0.78 0.7 0.65 0.6 0.05 0.4 _ _ _ _).
  - lra.
  - lra.
  - lra.
  - policy_cases; (reflexivity || lra).
Defined.

(** A higher confidence never gives a more severe action: what is NONE
    stays NONE above, what is ALERT stays ALERT below. *)
Theorem get_action_monotone (conf conf' : R) :
  conf <= conf' ->
  (get_action conf = "NONE" -> get_action conf' = "NONE")
  /\ (get_action conf' = "ALERT" -> get_action conf = "ALERT")
  /\ (get_action conf' = "FALLBACK" ->
      get_action conf = "FALLBACK" \/ get_action conf = "ALERT")
  /\ (get_action conf = "REBASELINE" ->
      get_action conf' = "REBASELINE" \/ get_action conf' = "NONE").
Proof.
  intros Hle.
  destruct (get_action_bands conf) as (Hn & Hr & Hf & Ha).
  destruct (get_action_bands conf') as (Hn' & Hr' & Hf' & Ha').
  repeat split.
  - intros H. apply Hn'. apply Hn in H. lra.
  - intros H. apply Ha. apply Ha' in H. lra.
  - intros H. apply Hf' in H.
    destruct (Rlt_dec conf 0.6); [right; apply Ha | left; apply Hf]; lra.
  - intros H. apply Hr in H.
    destruct (Rlt_dec conf' 0.8); [left; apply Hr' | right; apply Hn']; lra.
Qed.

Lemma get_action_monotone_witness : get_action 0.9 = "NONE".
Proof.
  refine (proj1 (get_action_monotone 0.85 0.9 _) _).
  - lra.
  - apply get_action_bands. lra.
Defined.

(** ** More on the environmental adjustment *)

(** Writing value [x] for factor [f] into the dict multiplies the final
    multiplier of the dict without [f] by the factor of that step, above
    the threshold or not. *)
Lemma env_multiplier_insert_any
    (self : CalibrationConfidenceDecay) (f : Factor) (x : R)
    (env : gmap string R) :
  env_multiplier self (<[factor_key f := x]> env)
  = env_multiplier self (delete (factor_key f) env)
    * factor_multiplier self f x.
Proof.
  unfold env_multiplier, humidity_step, temperature_step, wind_step,
    vibration_step, factor_multiplier.
  destruct f; simpl; map_lookups;
    repeat match goal with
           | |- context [env !! ?k] => destruct (env !! k)
           end;
    repeat match goal with
           | |- context [Rgt_dec ?a ?b] => destruct (Rgt_dec a b)
           end;
    ring.
Qed.

Lemma env_multiplier_lookup
    (self : CalibrationConfidenceDecay) (f : Factor) (x : R)
    (env : gmap string R) :
  env !! factor_key f = Some x ->
  env_multiplier self env
  = env_multiplier self (delete (factor_key f) env)
    * factor_multiplier self f x.
Proof.
  intros Hx. rewrite <- env_multiplier_insert_any.
  by rewrite insert_id.
Qed.

Lemma factor_multiplier_range initial half_life min_conf f x :
  1 <= factor_multiplier (decay_init initial half_life min_conf) f x
  /\ ((f = Vibration -> x <= 1) ->
      factor_multiplier (decay_init initial half_life min_conf) f x
        <= weight (decay_init initial half_life min_conf) (weight_key f)).
Proof.
  unfold factor_multiplier, py_min.
  destruct f; simpl; table_weights;
    (split; [| intros Hscale; try (assert (x <= 1) by auto)]);
    decide_comparisons; lra.
Qed.

Lemma factor_multiplier_monotone initial half_life min_conf f x y :
  magnitude f x <= magnitude f y ->
  factor_multiplier (decay_init initial half_life min_conf) f x
  <= factor_multiplier (decay_init initial half_life min_conf) f y.
Proof.
  unfold factor_multiplier, py_min.
  destruct f; simpl; table_weights; intros Hle;
    decide_comparisons; lra.
Qed.

(** Keys other than the four factor keys are not read: adding or
    changing one does not change the adjusted rate. *)
Theorem adjust_decay_rate_ignores_other_keys
    (self : CalibrationConfidenceDecay) (base_rate : R)
    (k : string) (v : R) (env : gmap string R) :
  (forall f, k <> factor_key f) ->
  _adjust_decay_rate self base_rate (Some (<[k := v]> env))
  = _adjust_decay_rate self base_rate (Some env)
  /\ _adjust_decay_rate self base_rate (Some (<[k := v]> ∅)) = base_rate.
Proof.
  intros Hother.
  pose proof (Hother Vibration) as Hv. pose proof (Hother Wind) as Hw.
  pose proof (Hother TemperatureDelta) as Ht.
  pose proof (Hother HumidityDelta) as Hh. simpl in *.
  assert (Hmult : forall d : gmap string R,
    env_multiplier self (<[k := v]> d) = env_multiplier self d).
  { intros d.
    unfold env_multiplier, humidity_step, temperature_step, wind_step,
      vibration_step.
    by rewrite !lookup_insert_ne by done. }
  assert (Hdict : forall d : gmap string R,
    _adjust_decay_rate self base_rate (Some d)
    = base_rate * env_multiplier self d).
  { intros d. unfold _adjust_decay_rate, opt_dict_truthy, dict_truthy. simpl.
    destruct (size d) eqn:Hsz; simpl; [| reflexivity].
    apply map_size_empty_inv in Hsz. subst d.
    unfold env_multiplier, humidity_step, temperature_step, wind_step,
      vibration_step.
    rewrite !lookup_empty. lra. }
  rewrite !Hdict, !Hmult. split; [reflexivity |].
  unfold env_multiplier, humidity_step, temperature_step, wind_step,
    vibration_step.
  rewrite !lookup_empty. lra.
Qed.

Lemma adjust_decay_rate_ignores_other_keys_witness :
  _adjust_decay_rate default_decay (ln 2 / 45)
    (Some (<["tracking_qa" := 0.2]> (<["wind_mph" := 25]> ∅)))
  = _adjust_decay_rate default_decay (ln 2 / 45)
      (Some (<["wind_mph" := 25]> ∅)).
Proof.
  refine (proj1 (adjust_decay_rate_ignores_other_keys default_decay
                   (ln 2 / 45) "tracking_qa" 0.2 (<["wind_mph" := 25]> ∅) _)).
  intros f. destruct f; discriminate.
Defined.

(** Only the size of a temperature or humidity change counts, not its
    direction: a delta and its opposite give the same adjusted rate. *)
Theorem adjust_decay_rate_sign_symmetric
    (self : CalibrationConfidenceDecay) (base_rate x : R)
    (env : gmap string R) :
  _adjust_decay_rate self base_rate
    (Some (<["temperature_delta_f" := - x]> env))
  = _adjust_decay_rate self base_rate
      (Some (<["temperature_delta_f" := x]> env))
  /\ _adjust_decay_rate self base_rate
       (Some (<["humidity_delta_pct" := - x]> env))
     = _adjust_decay_rate self base_rate
         (Some (<["humidity_delta_pct" := x]> env)).
Proof.
  assert (Habs : py_abs (- x) = py_abs x).
  { unfold py_abs. decide_comparisons; lra. }
  unfold _adjust_decay_rate, opt_dict_truthy.
  rewrite !dict_truthy_insert. simpl.
  change "temperature_delta_f" with (factor_key TemperatureDelta).
  change "humidity_delta_pct" with (factor_key HumidityDelta).
  rewrite !env_multiplier_insert_any.
  unfold factor_multiplier. simpl. rewrite Habs. split; reflexivity.
Qed.

(** The final multiplier is the product of the factors of the keys that
    are present. *)
Lemma env_multiplier_product
    (self : CalibrationConfidenceDecay) (env : gmap string R) :
  env_multiplier self env
  = from_option (factor_multiplier self Vibration) 1
      (env !! "rig_vibration_idx")
    * from_option (factor_multiplier self Wind) 1 (env !! "wind_mph")
    * from_option (factor_multiplier self TemperatureDelta) 1
        (env !! "temperature_delta_f")
    * from_option (factor_multiplier self HumidityDelta) 1
        (env !! "humidity_delta_pct").
Proof.
  unfold env_multiplier, humidity_step, temperature_step, wind_step,
    vibration_step, factor_multiplier.
  repeat match goal with
         | |- context [env !! ?k] => destruct (env !! k)
         end;
    simpl;
    repeat match goal with
           | |- context [Rgt_dec ?a ?b] => destruct (Rgt_dec a b)
           end;
    ring.
Qed.

(** A worse reading of one factor never gives a smaller rate: the
    adjusted rate does not decrease when the magnitude of a factor
    grows, everything else being equal. *)
Theorem adjust_decay_rate_monotone
    (initial half_life min_conf base_rate : R)
    (f : Factor) (x y : R) (env : gmap string R) :
  0 <= base_rate ->
  magnitude f x <= magnitude f y ->
  _adjust_decay_rate (decay_init initial half_life min_conf) base_rate
    (Some (<[factor_key f := x]> env))
  <= _adjust_decay_rate (decay_init initial half_life min_conf) base_rate
       (Some (<[factor_key f := y]> env)).
Proof.
  intros Hbase Hle.
  rewrite !adjust_decay_rate_dict, !env_multiplier_insert_any.
  pose proof (env_multiplier_ge_1 initial half_life min_conf
                (delete (factor_key f) env)) as Hrest.
  pose proof (factor_multiplier_monotone initial half_life min_conf f x y Hle)
    as Hmono.
  pose proof (factor_multiplier_range initial half_life min_conf f x)
    as [Hx _].
  set (rest := env_multiplier _ (delete _ env)) in *.
  set (fx := factor_multiplier _ f x) in *.
  set (fy := factor_multiplier _ f y) in *.
  assert (rest * fx <= rest * fy) by nra.
  nra.
Qed.

Lemma adjust_decay_rate_monotone_witness :
  _adjust_decay_rate (decay_init 0.95 45 0.5) (ln 2 / 45)
    (Some (<["wind_mph" := 10]> ∅))
  <= _adjust_decay_rate (decay_init 0.95 45 0.5) (ln 2 / 45)
       (Some (<["wind_mph" := 22]> ∅)).
Proof.
  refine (adjust_decay_rate_monotone 0.95 45 0.5 (ln 2 / 45) Wind 10 22 ∅
            _ _).
  - pose proof ln_lt_2. lra.
  - simpl. lra.
Defined.

(** When the vibration index, if present, is within its 0-1 scale, the
    adjustment is bounded: the adjusted rate is at most
    [2.0 * 1.5 * 1.3 * 1.2 = 4.68] times the base rate, and this is
    reached when all four factors are at their ceilings. *)
Theorem adjust_decay_rate_bounded
    (initial half_life min_conf base_rate : R)
    (env : option (gmap string R)) :
  0 <= base_rate ->
  (forall d v, env = Some d -> d !! "rig_vibration_idx" = Some v -> v <= 1) ->
  _adjust_decay_rate (decay_init initial half_life min_conf) base_rate env
    <= base_rate * 4.68
  /\ _adjust_decay_rate (decay_init initial half_life min_conf) base_rate
       (Some (<["rig_vibration_idx" := 1]>
               (<["wind_mph" := 30]>
                 (<["temperature_delta_f" := -15]>
                   (<["humidity_delta_pct" := 30]> ∅)))))
     = base_rate * 4.68.
Proof.
  intros Hbase Hscale. split.
  - destruct env as [d|]; [| unfold _adjust_decay_rate; simpl; lra].
    rewrite adjust_decay_rate_dict, env_multiplier_product.
    assert (Hv : 1 <= from_option
                        (factor_multiplier
                           (decay_init initial half_life min_conf) Vibration)
                        1 (d !! "rig_vibration_idx") <= 2).
    { destruct (d !! "rig_vibration_idx") as [v|] eqn:Hlook; simpl; [| lra].
      pose proof (factor_multiplier_range initial half_life min_conf
                    Vibration v) as [H1 H2].
      split; [exact H1 |]. apply H2. intros _. eauto. }
    assert (Hw : 1 <= from_option
                        (factor_multiplier
                           (decay_init initial half_life min_conf) Wind)
                        1 (d !! "wind_mph") <= 1.5).
    { destruct (d !! "wind_mph") as [v|]; simpl; [| lra].
      pose proof (factor_multiplier_range initial half_life min_conf Wind v)
        as [H1 H2].
      split; [exact H1 | apply H2; discriminate]. }
    assert (Ht : 1 <= from_option
                        (factor_multiplier
                           (decay_init initial half_life min_conf)
                           TemperatureDelta)
                        1 (d !! "temperature_delta_f") <= 1.3).
    { destruct (d !! "temperature_delta_f") as [v|]; simpl; [| lra].
      pose proof (factor_multiplier_range initial half_life min_conf
                    TemperatureDelta v) as [H1 H2].
      split; [exact H1 | apply H2; discriminate]. }
    assert (Hh : 1 <= from_option
                        (factor_multiplier
                           (decay_init initial half_life min_conf)
                           HumidityDelta)
                        1 (d !! "humidity_delta_pct") <= 1.2).
    { destruct (d !! "humidity_delta_pct") as [v|]; simpl; [| lra].
      pose proof (factor_multiplier_range initial half_life min_conf
                    HumidityDelta v) as [H1 H2].
      split; [exact H1 | apply H2; discriminate]. }
    set (a := from_option _ 1 (d !! "rig_vibration_idx")) in *.
    set (b := from_option _ 1 (d !! "wind_mph")) in *.
    set (c := from_option _ 1 (d !! "temperature_delta_f")) in *.
    set (e := from_option _ 1 (d !! "humidity_delta_pct")) in *.
    assert (1 <= a * b <= 3) by nra.
    assert (1 <= a * b * c <= 3.9) by nra.
    assert (a * b * c * e <= 4.68) by nra.
    nra.
  - rewrite adjust_decay_rate_dict, env_multiplier_product.
    map_lookups. simpl.
    unfold factor_multiplier. simpl. unfold py_min, py_abs. table_weights.
    decide_comparisons; lra.
Qed.

Lemma adjust_decay_rate_bounded_witness :
  _adjust_decay_rate (decay_init 0.95 45 0.5) (ln 2 / 45)
    (Some (<["rig_vibration_idx" := 0.5]> (<["wind_mph" := 40]> ∅)))
  <= ln 2 / 45 * 4.68.
Proof.
  refine (proj1 (adjust_decay_rate_bounded 0.95 45 0.5 (ln 2 / 45)
                   (Some (<["rig_vibration_idx" := 0.5]>
                           (<["wind_mph" := 40]> ∅))) _ _)).
  - pose proof ln_lt_2. lra.
  - intros d v Hd Hv. injection Hd as <-.
    rewrite lookup_insert_eq in Hv. injection Hv as <-. lra.
Defined.

(** When no factor present in the dict is above its threshold, the rate
    is returned unchanged. *)
Theorem adjust_decay_rate_below_thresholds
    (self : CalibrationConfidenceDecay) (base_rate : R)
    (env : gmap string R) :
  (forall f x, env !! factor_key f = Some x ->
               magnitude f x <= threshold f) ->
  _adjust_decay_rate self base_rate (Some env) = base_rate.
Proof.
  intros Hlow.
  assert (Hone : forall f,
    from_option (factor_multiplier self f) 1 (env !! factor_key f) = 1).
  { intros f. destruct (env !! factor_key f) as [x|] eqn:Hx; [| done].
    simpl. unfold factor_multiplier.
    pose proof (Hlow f x Hx).
    destruct (Rgt_dec (magnitude f x) (threshold f)); [lra | done]. }
  unfold _adjust_decay_rate, opt_dict_truthy. simpl.
  destruct (dict_truthy env); [| reflexivity].
  rewrite env_multiplier_product.
  pose proof (Hone Vibration) as Hv. pose proof (Hone Wind) as Hw.
  pose proof (Hone TemperatureDelta) as Ht.
  pose proof (Hone HumidityDelta) as Hh. simpl in Hv, Hw, Ht, Hh.
  rewrite Hv, Hw, Ht, Hh. lra.
Qed.

Lemma adjust_decay_rate_below_thresholds_witness :
  _adjust_decay_rate default_decay (ln 2 / 45)
    (Some (<["wind_mph" := 15]> ∅)) = ln 2 / 45.
Proof.
  refine (adjust_decay_rate_below_thresholds default_decay (ln 2 / 45)
            (<["wind_mph" := 15]> ∅) _).
  intros f x. destruct f; simpl; map_lookups; intros Hx;
    try discriminate.
  injection Hx as <-. lra.
Defined.

(** ** More on the decay *)

Lemma minutes_between_same t : minutes_between t t = 0.
Proof.
  unfold minutes_between, total_seconds. rewrite Z.sub_diag. lra.
Qed.

Lemma minutes_between_nonneg last t :
  (last <= t)%Z -> 0 <= minutes_between last t.
Proof.
  intros Hle. unfold minutes_between, total_seconds.
  assert (0 <= IZR (t - last)) by (apply IZR_le; lia).
  lra.
Qed.

Lemma exp_le x y : x <= y -> exp x <= exp y.
Proof.
  intros [Hlt | ->]; [left; by apply exp_increasing | right; reflexivity].
Qed.

Lemma py_max_le_compat a a' b : a <= a' -> py_max a b <= py_max a' b.
Proof. intros Hle. unfold py_max. decide_comparisons; lra. Qed.

Lemma factor_multiplier_above initial half_life min_conf f x :
  magnitude f x > threshold f ->
  1 < factor_multiplier (decay_init initial half_life min_conf) f x.
Proof.
  unfold factor_multiplier, py_min.
  destruct f; simpl; table_weights; intros Habove;
    decide_comparisons; lra.
Qed.

Lemma calculate_confidence_zero_elapsed self t env :
  calculate_confidence self t t env
  = py_max (initial_confidence self) (min_confidence self).
Proof.
  unfold calculate_confidence. rewrite minutes_between_same.
  rewrite Rmult_0_r, exp_0. f_equal. lra.
Qed.

(** At the calibration instant the elapsed time is zero and the method
    returns the initial confidence (or the floor, if that is higher),
    whatever the environmental factors. *)
Theorem calculate_confidence_at_calibration
    (self : CalibrationConfidenceDecay) (t : datetime)
    (env : option (gmap string R)) :
  calculate_confidence self t t env
  = py_max (initial_confidence self) (min_confidence self).
Proof. apply calculate_confidence_zero_elapsed. Qed.

Lemma calculate_confidence_bounds
    (initial half_life min_conf : R)
    (last t : datetime) (env : option (gmap string R)) :
  0 <= initial ->
  0 < half_life ->
  (last <= t)%Z ->
  min_conf
    <= calculate_confidence (decay_init initial half_life min_conf) last t env
    <= py_max initial min_conf.
Proof.
  intros Hi Hh Hle. split; [apply py_max_ge_r |].
  unfold calculate_confidence.
  destruct (adjust_decay_rate_multiplier initial half_life min_conf
              (decay_rate (decay_init initial half_life min_conf)) env)
    as (m & Hm & ->).
  pose proof (decay_rate_pos initial half_life min_conf Hh) as Hrate.
  pose proof (minutes_between_nonneg last t Hle) as Hmins.
  set (rate := decay_rate (decay_init initial half_life min_conf)) in *.
  set (mins := minutes_between last t) in *.
  simpl initial_confidence. simpl min_confidence.
  apply py_max_le_compat.
  assert (Hexp : exp (- (rate * m) * mins) <= 1).
  { rewrite <- exp_0. apply exp_le.
    assert (0 <= rate * m) by nra. nra. }
  pose proof (exp_pos (- (rate * m) * mins)). nra.
Qed.

(** From the calibration instant on, the confidence stays between the
    floor and the initial confidence (or the floor, if higher), whatever
    the environmental factors. *)
Theorem calculate_confidence_range
    (initial half_life min_conf : R)
    (last t : datetime) (env : option (gmap string R)) :
  0 <= initial ->
  0 < half_life ->
  (last <= t)%Z ->
  min_conf
    <= calculate_confidence (decay_init initial half_life min_conf) last t env
    <= py_max initial min_conf.
Proof. apply calculate_confidence_bounds. Qed.

Lemma calculate_confidence_range_witness :
  0.5
    <= calculate_confidence (decay_init 0.95 45 0.5) 0%Z 600000000%Z
         (Some (<["wind_mph" := 20]> ∅))
    <= py_max 0.95 0.5.
Proof.
  refine (calculate_confidence_range 0.95 45 0.5 0%Z 600000000%Z
            (Some (<["wind_mph" := 20]> ∅)) _ _ _).
  - lra.
  - lra.
  - lia.
Defined.

(** After the calibration instant, environmental factors never raise
    the confidence above the one computed without them; with some
    factor above its threshold they lower it strictly, as long as the
    confidence without them is above the floor. *)
Theorem environment_lowers_confidence
    (initial half_life min_conf : R)
    (last t : datetime) (env : gmap string R) :
  0 < initial ->
  0 < half_life ->
  (last < t)%Z ->
  let self := decay_init initial half_life min_conf in
  calculate_confidence self last t (Some env)
    <= calculate_confidence self last t None
  /\ ((exists f x, env !! factor_key f = Some x
                   /\ magnitude f x > threshold f) ->
      min_conf < calculate_confidence self last t None ->
      calculate_confidence self last t (Some env)
        < calculate_confidence self last t None).
Proof.
  intros Hi Hh Hlt. cbv zeta.
  rewrite (calculate_confidence_no_env _ last t None) by reflexivity.
  unfold calculate_confidence. rewrite adjust_decay_rate_dict.
  pose proof (decay_rate_pos initial half_life min_conf Hh) as Hrate.
  pose proof (minutes_between_neg t last Hlt) as Hneg.
  assert (Hmins : 0 < minutes_between last t).
  { revert Hneg. unfold minutes_between, total_seconds.
    replace (last - t)%Z with (- (t - last))%Z by lia.
    rewrite opp_IZR. lra. }
  pose proof (env_multiplier_ge_1 initial half_life min_conf env) as Hm.
  set (rate := decay_rate (decay_init initial half_life min_conf)) in *.
  set (mins := minutes_between last t) in *.
  set (m := env_multiplier _ env) in *.
  simpl initial_confidence. simpl min_confidence.
  split.
  - apply py_max_le_compat.
    assert (exp (- (rate * m) * mins) <= exp (- rate * mins)).
    { apply exp_le.
      assert (0 < rate * mins) by (apply Rmult_lt_0_compat; lra).
      assert (0 <= rate * mins * (m - 1)) by (apply Rmult_le_pos; lra).
      lra. }
    nra.
  - intros (f & x & Hx & Habove) Hfloor.
    assert (Hstrict : 1 < m).
    { subst m. rewrite (env_multiplier_lookup _ f x env Hx).
      pose proof (env_multiplier_ge_1 initial half_life min_conf
                    (delete (factor_key f) env)).
      pose proof (factor_multiplier_above initial half_life min_conf f x
                    Habove).
      nra. }
    assert (exp (- (rate * m) * mins) < exp (- rate * mins)).
    { apply exp_increasing.
      assert (0 < rate * mins) by (apply Rmult_lt_0_compat; lra).
      assert (0 < rate * mins * (m - 1)) by (apply Rmult_lt_0_compat; lra).
      lra. }
    assert (initial * exp (- (rate * m) * mins)
            < initial * exp (- rate * mins)) by nra.
    revert Hfloor. unfold py_max. decide_comparisons; lra.
Qed.

Lemma ln_2_lt_1 : ln 2 < 1.
Proof.
  rewrite <- (ln_exp 1). apply ln_increasing; [lra |].
  pose proof (exp_ineq1_le 1). pose proof (exp_ineq1 1). lra.
Qed.

(** Twenty minutes after the calibration the default model is still
    above its floor when nothing stresses the rig. *)
Lemma default_confidence_after_20_minutes :
  0.5 < calculate_confidence (decay_init 0.95 45 0.5) 0%Z 1200000000%Z None.
Proof.
  rewrite calculate_confidence_no_env by reflexivity.
  eapply Rlt_le_trans; [| apply py_max_ge_l].
  unfold minutes_between, total_seconds. simpl.
  replace (1200000000 - 0)%Z with 1200000000%Z by lia.
  replace (- (ln 2 / 45) * (1200000000 / 1000000 / 60))
    with (- (ln 2 * (4 / 9))) by lra.
  pose proof (exp_ineq1_le (- (ln 2 * (4 / 9)))).
  pose proof ln_2_lt_1. pose proof ln_2_pos. lra.
Qed.

Lemma environment_lowers_confidence_witness :
  let self := decay_init 0.95 45 0.5 in
  let env : gmap string R := <["rig_vibration_idx" := 0.5]> ∅ in
  calculate_confidence self 0%Z 1200000000%Z (Some env)
    <= calculate_confidence self 0%Z 1200000000%Z None
  /\ calculate_confidence self 0%Z 1200000000%Z (Some env)
     < calculate_confidence self 0%Z 1200000000%Z None.
Proof.
  destruct (environment_lowers_confidence 0.95 45 0.5
              0%Z 1200000000%Z (<["rig_vibration_idx" := 0.5]> ∅)
              ltac:(lra) ltac:(lra) ltac:(lia)) as [Hle Hlt].
  split; [exact Hle |]. apply Hlt.
  - exists Vibration, 0.5. split; [apply lookup_insert_eq | simpl; lra].
  - exact default_confidence_after_20_minutes.
Defined.

(** With no environmental factors the confidence halves over one
    half-life, as long as the later value is still above the floor. *)
Theorem calculate_confidence_halves
    (initial half_life min_conf : R)
    (env : option (gmap string R)) (last t1 t2 : datetime) :
  0 < initial ->
  0 < half_life ->
  opt_dict_truthy env = false ->
  minutes_between last t2 = minutes_between last t1 + half_life ->
  let self := decay_init initial half_life min_conf in
  min_conf < calculate_confidence self last t2 env ->
  calculate_confidence self last t2 env
  = calculate_confidence self last t1 env / 2.
Proof.
  intros Hi Hh Hfalsy Hmins. cbv zeta.
  rewrite !calculate_confidence_no_env by exact Hfalsy.
  rewrite Hmins. simpl.
  replace (- (ln 2 / half_life) * (minutes_between last t1 + half_life))
    with (- (ln 2 / half_life) * minutes_between last t1 + - ln 2)
    by (field; lra).
  rewrite exp_plus, exp_neg_ln_2.
  pose proof (exp_pos (- (ln 2 / half_life) * minutes_between last t1)).
  set (e := exp _) in *.
  unfold py_max. decide_comparisons; intros; nra.
Qed.

Lemma calculate_confidence_halves_witness :
  let self := decay_init 0.95 45 0.2 in
  calculate_confidence self 0%Z 2700000000%Z None
  = calculate_confidence self 0%Z 0%Z None / 2.
Proof.
  refine (calculate_confidence_halves 0.95 45 0.2 None
            0%Z 0%Z 2700000000%Z _ _ _ _ _).
  - lra.
  - lra.
  - reflexivity.
  - unfold minutes_between, total_seconds.
    replace (2700000000 - 0)%Z with 2700000000%Z by lia.
    replace (0 - 0)%Z with 0%Z by lia. lra.
  - rewrite calculate_confidence_no_env by reflexivity.
    eapply Rlt_le_trans; [| apply py_max_ge_l].
    unfold minutes_between, total_seconds. simpl.
    replace (2700000000 - 0)%Z with 2700000000%Z by lia.
    replace (- (ln 2 / 45) * (2700000000 / 1000000 / 60)) with (- ln 2)
      by lra.
    rewrite exp_neg_ln_2. lra.
Defined.

(** ** Rounding of the reported confidence *)

Lemma rint_bounds x : IZR (rint x) - 1 / 2 <= x <= IZR (rint x) + 1 / 2.
Proof.
  unfold rint. cbv zeta.
  pose proof (base_fp x) as [Hlo Hhi]. unfold frac_part in *.
  destruct (Rlt_dec (x - IZR (Int_part x)) (1 / 2));
    [lra |].
  destruct (Rlt_dec (1 / 2) (x - IZR (Int_part x)));
    [rewrite plus_IZR; lra |].
  destruct (Z.even (Int_part x)); [lra | rewrite plus_IZR; lra].
Qed.

Lemma rint_ge_int (k : Z) x : IZR k <= x -> (k <= rint x)%Z.
Proof.
  intros Hle. pose proof (rint_bounds x) as [_ Hhi].
  assert (IZR (k - 1) < IZR (rint x)) by (rewrite minus_IZR; lra).
  apply lt_IZR in H. lia.
Qed.

Lemma rint_le_int (k : Z) x : x <= IZR k -> (rint x <= k)%Z.
Proof.
  intros Hle. pose proof (rint_bounds x) as [Hlo _].
  assert (IZR (rint x) < IZR (k + 1)) by (rewrite plus_IZR; lra).
  apply lt_IZR in H. lia.
Qed.

Lemma rint_int (k : Z) : rint (IZR k) = k.
Proof.
  apply Z.le_antisymm; [apply rint_le_int | apply rint_ge_int]; lra.
Qed.

Lemma round3_ge (k : Z) x : IZR k / 1000 <= x -> IZR k / 1000 <= round3 x.
Proof.
  intros Hle. unfold round3.
  assert (k <= rint (x * 1000))%Z by (apply rint_ge_int; lra).
  apply IZR_le in H. lra.
Qed.

Lemma round3_le (k : Z) x : x <= IZR k / 1000 -> round3 x <= IZR k / 1000.
Proof.
  intros Hle. unfold round3.
  assert (rint (x * 1000) <= k)%Z by (apply rint_le_int; lra).
  apply IZR_le in H. lra.
Qed.

Lemma round3_fixed (k : Z) : round3 (IZR k / 1000) = IZR k / 1000.
Proof.
  apply Rle_antisym; [apply round3_le | apply round3_ge]; lra.
Qed.

(** Rounding to three decimals moves the value by at most 0.0005. *)
Lemma round3_close x : - 0.0005 <= round3 x - x <= 0.0005.
Proof.
  unfold round3. pose proof (rint_bounds (x * 1000)). lra.
Qed.

(** ** More on the manager *)

(** On every manager the class can produce, the timestamp of the
    current calibration is the one of the last entry of the history
    (none when the history is empty), and the decay model is the
    default one. *)
Theorem manager_invariant (self : CalibrationManager) :
  reachable self ->
  last_calibration_ts self = timestamp <$> last (calibration_history self)
  /\ (last_calibration_ts self = None <-> calibration_history self = [])
  /\ decay_model self = default_decay.
Proof.
  intros Hreach.
  assert (Hlast :
    last_calibration_ts self = timestamp <$> last (calibration_history self)).
  { induction Hreach as [| self now venue session conf _ IH
                         | self now ts snap _ IH]; simpl.
    - reflexivity.
    - by rewrite last_snoc.
    - unfold get_current_confidence.
      destruct (last_calibration_ts self) eqn:Hts; simpl; [| by rewrite Hts].
      by destruct (recommend_recalibration _ _ _). }
  split; [exact Hlast |]. split; [| by apply reachable_decay_model].
  rewrite Hlast. split.
  - destruct (calibration_history self) as [| e l] using rev_ind;
      [done |]. by rewrite last_snoc.
  - by intros ->.
Qed.

Lemma manager_invariant_witness :
  let self :=
    update_calibration manager_init 7%Z "busch_iii" "game_2025_08_15_1900"
      0.95 in
  last_calibration_ts self = timestamp <$> last (calibration_history self).
Proof.
  refine (proj1 (manager_invariant
                   (update_calibration manager_init 7%Z "busch_iii"
                      "game_2025_08_15_1900" 0.95) _)).
  apply reach_update, reach_init.
Defined.

(** The history is append-only: a calibration adds one entry at the end
    and keeps the stored snapshot; a query changes neither the history
    nor the calibration timestamp nor the decay model. *)
Theorem history_append_only
    (self : CalibrationManager) (now : datetime)
    (venue session : string) (conf : R)
    (current_ts : option datetime) (snap : option (gmap string R)) :
  let calibrated := update_calibration self now venue session conf in
  let queried := (get_current_confidence self now current_ts snap).2 in
  calibration_history self `prefix_of` calibration_history calibrated
  /\ length (calibration_history calibrated)
     = S (length (calibration_history self))
  /\ last_env_snapshot calibrated = last_env_snapshot self
  /\ calibration_history queried = calibration_history self
  /\ last_calibration_ts queried = last_calibration_ts self
  /\ decay_model queried = decay_model self.
Proof.
  cbv zeta. split; [by apply prefix_app_r |].
  split; [simpl; rewrite length_app; simpl; lia |].
  split; [reflexivity |].
  unfold get_current_confidence.
  destruct (last_calibration_ts self) eqn:Hts; simpl; [| by rewrite Hts].
  by destruct (recommend_recalibration _ _ _).
Qed.

(** The confidence, venue and session recorded with a calibration are
    kept in the history only: later queries do not depend on them, the
    decay always starts from the initial confidence of the model. *)
Theorem recorded_confidence_not_used
    (self : CalibrationManager) (calibrated_at now : datetime)
    (venue venue' session session' : string) (conf conf' : R)
    (current_ts : option datetime) (snap : option (gmap string R)) :
  (get_current_confidence
     (update_calibration self calibrated_at venue session conf)
     now current_ts snap).1
  = (get_current_confidence
       (update_calibration self calibrated_at venue' session' conf')
       now current_ts snap).1.
Proof.
  rewrite !(get_current_confidence_status _ now current_ts snap calibrated_at)
    by reflexivity.
  reflexivity.
Qed.

(** An empty snapshot is treated as no snapshot at all: same dict
    returned, and the stored snapshot is kept. *)
Theorem empty_snapshot_is_no_snapshot
    (self : CalibrationManager) (now : datetime)
    (current_ts : option datetime) :
  get_current_confidence self now current_ts (Some ∅)
  = get_current_confidence self now current_ts None
  /\ last_env_snapshot
       (get_current_confidence self now current_ts (Some ∅)).2
     = last_env_snapshot self.
Proof.
  assert (Heq : get_current_confidence self now current_ts (Some ∅)
                = get_current_confidence self now current_ts None).
  { unfold get_current_confidence, build_env_factors, store_snapshot,
      snapshot_get.
    by rewrite dict_truthy_empty. }
  split; [exact Heq |]. rewrite Heq.
  unfold get_current_confidence.
  destruct (last_calibration_ts self); [| reflexivity].
  by destruct (recommend_recalibration _ _ _).
Qed.

Lemma format_2f_half : format_2f 0.5 = "0.50".
Proof.
  unfold format_2f. cbv zeta.
  assert (Hn : rint (py_abs 0.5 * 100) = 50%Z).
  { replace (py_abs 0.5 * 100) with (IZR 50);
      [apply rint_int |].
    unfold py_abs. decide_comparisons; lra. }
  rewrite Hn.
  destruct (Rlt_dec 0.5 0); [lra |]. reflexivity.
Qed.

(** A query at the calibration instant reports the initial confidence
    0.95 with action NONE and no recommendation, whatever snapshot (and
    whatever QA score and late-data fraction in it) is passed. *)
Theorem fresh_calibration_status
    (self : CalibrationManager) (calibrated_at now : datetime)
    (venue session : string) (conf : R)
    (snap : option (gmap string R)) :
  reachable self ->
  let status :=
    (get_current_confidence
       (update_calibration self calibrated_at venue session conf)
       now (Some calibrated_at) snap).1 in
  confidence status = 0.95
  /\ action status = "NONE"
  /\ should_recalibrate status = false
  /\ reason status = "Calibration acceptable"
  /\ minutes_since_calibration status = Some 0.
Proof.
  intros Hreach. cbv zeta.
  rewrite (get_current_confidence_status _ now (Some calibrated_at) snap
             calibrated_at) by reflexivity.
  cbv zeta. simpl default.
  rewrite calculate_confidence_zero_elapsed. simpl decay_model.
  rewrite (reachable_decay_model _ Hreach). simpl.
  assert (Hmax : py_max 0.95 0.5 = 0.95).
  { unfold py_max. decide_comparisons; lra. }
  rewrite Hmax, minutes_between_same.
  repeat split.
  - replace 0.95 with (IZR 950 / 1000) by lra. apply round3_fixed.
  - apply get_action_bands. lra.
  - policy_cases; (reflexivity || lra).
  - policy_cases; (reflexivity || lra).
Qed.

Lemma fresh_calibration_status_witness :
  let status :=
    (get_current_confidence
       (update_calibration manager_init 7%Z "busch_iii"
          "game_2025_08_15_1900" 0.6)
       9%Z (Some 7%Z) (Some (<["tracking_qa" := 0.1]> ∅))).1 in
  confidence status = 0.95
  /\ action status = "NONE"
  /\ should_recalibrate status = false
  /\ reason status = "Calibration acceptable"
  /\ minutes_since_calibration status = Some 0.
Proof.
  exact (fresh_calibration_status manager_init 7%Z 9%Z "busch_iii"
           "game_2025_08_15_1900" 0.6 (Some (<["tracking_qa" := 0.1]> ∅))
           reach_init).
Defined.

(** On the first observation (no snapshot stored yet) the temperature
    and the humidity of the snapshot play no part: no delta is passed to
    the decay model, and two snapshots that agree on wind, vibration, QA
    score and late-data fraction give the same dict. *)
Theorem first_observation_skips_deltas
    (self : CalibrationManager) (now last_ts : datetime)
    (current_ts : option datetime) (snap snap' : gmap string R) :
  last_calibration_ts self = Some last_ts ->
  dict_truthy (last_env_snapshot self) = false ->
  dict_truthy snap = true ->
  dict_truthy snap' = true ->
  (forall k, k ∈ ["wind_mph"; "rig_vibration_idx_0_1"; "tracking_qa";
                  "late_data_frac"] -> snap !! k = snap' !! k) ->
  let status := (get_current_confidence self now current_ts (Some snap)).1 in
  (env_factors status ≫= (.!! "temperature_delta_f")) = None
  /\ (env_factors status ≫= (.!! "humidity_delta_pct")) = None
  /\ status = (get_current_confidence self now current_ts (Some snap')).1.
Proof.
  intros Hts Hnone Hsnap Hsnap' Hagree. cbv zeta.
  rewrite !(get_current_confidence_status _ now current_ts _ last_ts)
    by exact Hts.
  cbv zeta. simpl.
  assert (Hw : snap !! "wind_mph" = snap' !! "wind_mph")
    by (apply Hagree; set_solver).
  assert (Hv : snap !! "rig_vibration_idx_0_1"
               = snap' !! "rig_vibration_idx_0_1")
    by (apply Hagree; set_solver).
  assert (Hq : snap !! "tracking_qa" = snap' !! "tracking_qa")
    by (apply Hagree; set_solver).
  assert (Hl : snap !! "late_data_frac" = snap' !! "late_data_frac")
    by (apply Hagree; set_solver).
  rewrite Hsnap, Hsnap', Hnone. unfold dict_get.
  rewrite Hw, Hv, Hq, Hl.
  repeat split; by map_lookups.
Qed.

Lemma first_observation_skips_deltas_witness :
  let self :=
    update_calibration manager_init 0%Z "busch_iii" "game_2025_08_15_1900"
      0.95 in
  let snap : gmap string R :=
    <["temperature_f" := 75]> (<["wind_mph" := 5]> ∅) in
  let snap' : gmap string R :=
    <["temperature_f" := 40]> (<["wind_mph" := 5]> ∅) in
  (get_current_confidence self 0%Z (Some 900000000%Z) (Some snap)).1
  = (get_current_confidence self 0%Z (Some 900000000%Z) (Some snap')).1.
Proof.
  refine (proj2 (proj2 (first_observation_skips_deltas
            (update_calibration manager_init 0%Z "busch_iii"
               "game_2025_08_15_1900" 0.95)
            0%Z 0%Z (Some 900000000%Z)
            (<["temperature_f" := 75]> (<["wind_mph" := 5]> ∅))
            (<["temperature_f" := 40]> (<["wind_mph" := 5]> ∅))
            eq_refl eq_refl _ _ _))).
  - apply dict_truthy_insert.
  - apply dict_truthy_insert.
  - intros k Hk.
    repeat (apply elem_of_cons in Hk as [-> | Hk]; [by map_lookups |]).
    by apply elem_of_nil in Hk.
Defined.

(** When the snapshot carries no QA score and no late-data fraction (or
    there is no snapshot), the optimistic defaults 0.9 and 0.05 are used
    and only the confidence decides: recalibration is recommended
    exactly when the action is ALERT. *)
Theorem default_quality_recommends_on_alert_only
    (self : CalibrationManager) (now last_ts : datetime)
    (current_ts : option datetime) (snap : option (gmap string R)) :
  last_calibration_ts self = Some last_ts ->
  (forall d, snap = Some d ->
             d !! "tracking_qa" = None /\ d !! "late_data_frac" = None) ->
  let status := (get_current_confidence self now current_ts snap).1 in
  should_recalibrate status = true <-> action status = "ALERT".
Proof.
  intros Hts Hkeys. cbv zeta.
  rewrite (get_current_confidence_status _ now current_ts snap last_ts)
    by exact Hts.
  cbv zeta. simpl.
  assert (Hqa : snapshot_get snap "tracking_qa" 0.9 = 0.9).
  { unfold snapshot_get, dict_get. destruct snap as [d|]; [| done].
    destruct (Hkeys d eq_refl) as [-> _]. by destruct (dict_truthy d). }
  assert (Hlate : snapshot_get snap "late_data_frac" 0.05 = 0.05).
  { unfold snapshot_get, dict_get. destruct snap as [d|]; [| done].
    destruct (Hkeys d eq_refl) as [_ ->]. by destruct (dict_truthy d). }
  rewrite Hqa, Hlate.
  set (conf := calculate_confidence _ _ _ _).
  destruct (get_action_bands conf) as (_ & _ & _ & Halert).
  rewrite Halert.
  policy_cases; split; intros; try discriminate; try reflexivity; lra.
Qed.

Lemma default_quality_recommends_on_alert_only_witness :
  let self :=
    update_calibration manager_init 0%Z "busch_iii" "game_2025_08_15_1900"
      0.95 in
  let status :=
    (get_current_confidence self 0%Z (Some 900000000%Z) None).1 in
  should_recalibrate status = true <-> action status = "ALERT".
Proof.
  refine (default_quality_recommends_on_alert_only
            (update_calibration manager_init 0%Z "busch_iii"
               "game_2025_08_15_1900" 0.95)
            0%Z 0%Z (Some 900000000%Z) None eq_refl _).
  intros d Hd. discriminate Hd.
Defined.

(** The confidence reported by a manager the class can produce is never
    below 0.5, rounding included, and from the calibration instant on
    it is never above 0.95. *)
Theorem reported_confidence_range
    (self : CalibrationManager) (now last_ts : datetime)
    (current_ts : option datetime) (snap : option (gmap string R)) :
  reachable self ->
  last_calibration_ts self = Some last_ts ->
  let status := (get_current_confidence self now current_ts snap).1 in
  0.5 <= confidence status
  /\ ((last_ts <= default now current_ts)%Z -> confidence status <= 0.95).
Proof.
  intros Hreach Hts. cbv zeta.
  rewrite (get_current_confidence_status _ now current_ts snap last_ts)
    by exact Hts.
  cbv zeta. simpl. rewrite (reachable_decay_model _ Hreach).
  split.
  - replace 0.5 with (IZR 500 / 1000) by lra. apply round3_ge.
    replace (IZR 500 / 1000) with (min_confidence default_decay)
      by (simpl; lra).
    unfold calculate_confidence. apply py_max_ge_r.
  - intros Hle.
    replace 0.95 with (IZR 950 / 1000) by lra. apply round3_le.
    pose proof (calculate_confidence_bounds 0.95 45 0.5 last_ts
                  (default now current_ts)
                  (Some (build_env_factors (last_env_snapshot self) snap))
                  ltac:(lra) ltac:(lra) Hle) as [_ Hup].
    assert (Hmax : py_max 0.95 0.5 = 0.95).
    { unfold py_max. decide_comparisons; lra. }
    rewrite Hmax in Hup. unfold default_decay. lra.
Qed.

Lemma reported_confidence_range_witness :
  let self :=
    update_calibration manager_init 0%Z "busch_iii" "game_2025_08_15_1900"
      0.95 in
  0.5 <= confidence
           (get_current_confidence self 0%Z (Some 900000000%Z)
              (Some (<["wind_mph" := 40]> ∅))).1.
Proof.
  refine (proj1 (reported_confidence_range
            (update_calibration manager_init 0%Z "busch_iii"
               "game_2025_08_15_1900" 0.95)
            0%Z 0%Z (Some 900000000%Z) (Some (<["wind_mph" := 40]> ∅))
            _ eq_refl)).
  apply reach_update, reach_init.
Defined.

(** One half-life (45 minutes) or more after the calibration, a manager
    the class can produce reports the floor 0.5, action ALERT and a
    recommendation to recalibrate, whatever the snapshot. *)
Theorem stale_calibration_alerts
    (self : CalibrationManager) (now last_ts : datetime)
    (current_ts : option datetime) (snap : option (gmap string R)) :
  reachable self ->
  last_calibration_ts self = Some last_ts ->
  (last_ts + 2700000000 <= default now current_ts)%Z ->
  let status := (get_current_confidence self now current_ts snap).1 in
  confidence status = 0.5
  /\ action status = "ALERT"
  /\ should_recalibrate status = true
  /\ reason status = "Low calibration confidence: 0.50".
Proof.
  intros Hreach Hts Hstale. cbv zeta.
  rewrite (get_current_confidence_status _ now current_ts snap last_ts)
    by exact Hts.
  cbv zeta. simpl. rewrite (reachable_decay_model _ Hreach).
  set (t := default now current_ts) in *.
  set (factors := build_env_factors (last_env_snapshot self) snap).
  assert (Hconf :
    calculate_confidence default_decay last_ts t (Some factors) = 0.5).
  { unfold calculate_confidence, default_decay.
    destruct (adjust_decay_rate_multiplier 0.95 45 0.5
                (decay_rate (decay_init 0.95 45 0.5)) (Some factors))
      as (m & Hm & ->).
    simpl.
    assert (Hmins : 45 <= minutes_between last_ts t).
    { unfold minutes_between, total_seconds.
      assert (IZR 2700000000 <= IZR (t - last_ts)) by (apply IZR_le; lia).
      lra. }
    pose proof ln_2_pos as Hln.
    assert (Hexp : exp (- (ln 2 / 45 * m) * minutes_between last_ts t)
                   <= 1 / 2).
    { rewrite <- exp_neg_ln_2. apply exp_le.
      assert (0 <= ln 2 / 45 * (m - 1)) by (apply Rmult_le_pos; lra).
      assert (0 <= ln 2 / 45 * m * (minutes_between last_ts t - 45))
        by (apply Rmult_le_pos; lra).
      lra. }
    unfold py_max. decide_comparisons; lra. }
  rewrite Hconf.
  repeat split.
  - replace 0.5 with (IZR 500 / 1000) by lra. apply round3_fixed.
  - apply get_action_bands. lra.
  - policy_cases; (reflexivity || lra).
  - rewrite <- format_2f_half. policy_cases; (reflexivity || lra).
Qed.

Lemma stale_calibration_alerts_witness :
  let self :=
    update_calibration manager_init 0%Z "busch_iii" "game_2025_08_15_1900"
      0.95 in
  let status :=
    (get_current_confidence self 0%Z (Some 3600000000%Z) None).1 in
  confidence status = 0.5
  /\ action status = "ALERT"
  /\ should_recalibrate status = true
  /\ reason status = "Low calibration confidence: 0.50".
Proof.
  refine (stale_calibration_alerts
            (update_calibration manager_init 0%Z "busch_iii"
               "game_2025_08_15_1900" 0.95)
            0%Z 0%Z (Some 3600000000%Z) None _ eq_refl _).
  - apply reach_update, reach_init.
  - simpl. lia.
Defined.

(** Once a query has stored a snapshot, a query with that same snapshot
    sees no change: both deltas are zero, and the confidence is the one
    obtained from wind and vibration alone. *)
Theorem repeated_snapshot_zero_deltas
    (self : CalibrationManager) (now1 now2 last_ts : datetime)
    (ts1 ts2 : option datetime) (snap : gmap string R) :
  last_calibration_ts self = Some last_ts ->
  dict_truthy snap = true ->
  let self' := (get_current_confidence self now1 ts1 (Some snap)).2 in
  let status := (get_current_confidence self' now2 ts2 (Some snap)).1 in
  (env_factors status ≫= (.!! "temperature_delta_f")) = Some 0
  /\ (env_factors status ≫= (.!! "humidity_delta_pct")) = Some 0
  /\ confidence status
     = round3
         (calculate_confidence (decay_model self) last_ts (default now2 ts2)
            (Some (<["wind_mph" := dict_get snap "wind_mph" 0]>
                    (<["rig_vibration_idx" :=
                         dict_get snap "rig_vibration_idx_0_1" 0]> ∅)))).
Proof.
  intros Hts Hsnap. cbv zeta.
  rewrite (get_current_confidence_state _ now1 ts1 (Some snap) last_ts)
    by exact Hts.
  rewrite (get_current_confidence_status _ now2 ts2 (Some snap) last_ts)
    by exact Hts.
  cbv zeta. simpl. rewrite !Hsnap.
  set (t := dict_get snap "temperature_f" 70).
  set (h := dict_get snap "humidity_pct" 50).
  replace (t - t) with 0 by lra. replace (h - h) with 0 by lra.
  repeat split; try by map_lookups.
  f_equal. unfold calculate_confidence, _adjust_decay_rate, opt_dict_truthy.
  rewrite !dict_truthy_insert. simpl.
  do 2 f_equal. f_equal. f_equal. f_equal.
  unfold env_multiplier, humidity_step, temperature_step, wind_step,
    vibration_step.
  map_lookups. unfold py_abs.
  destruct (Rlt_dec 0 0); [lra |].
  destruct (Rgt_dec 0 10); [lra |]. destruct (Rgt_dec 0 5); [lra |].
  reflexivity.
Qed.

Lemma repeated_snapshot_zero_deltas_witness :
  let self :=
    update_calibration manager_init 0%Z "busch_iii" "game_2025_08_15_1900"
      0.95 in
  let snap : gmap string R := <["temperature_f" := 90]> ∅ in
  let self' :=
    (get_current_confidence self 0%Z (Some 900000000%Z) (Some snap)).2 in
  let status :=
    (get_current_confidence self' 0%Z (Some 1800000000%Z) (Some snap)).1 in
  (env_factors status ≫= (.!! "temperature_delta_f")) = Some 0.
Proof.
  refine (proj1 (repeated_snapshot_zero_deltas
            (update_calibration manager_init 0%Z "busch_iii"
               "game_2025_08_15_1900" 0.95)
            0%Z 0%Z 0%Z (Some 900000000%Z) (Some 1800000000%Z)
            (<["temperature_f" := 90]> ∅) eq_refl _)).
  apply dict_truthy_insert.
Defined.
